(** * Research processing layer of the affirmations application

    A shallow embedding of [src/applications/affirmations/src/research.py]
    and the properties its specification states about it.

    Python values are modelled as follows.
    - [str] is a list of characters.  A character is a code point in the
      range U+0000..U+00FF (Rocq's 8-bit [ascii]); on that range
      [str.lower] is length preserving and [str.isspace], [str.strip],
      [str.split] and the regular expression class [\s] agree on the same
      twelve white-space code points.
    - [int] is [Z]; [len] returns a [Z]; [//] is [Z.div] (floor division).
    - slices [s[a:b]] follow Python's rules for negative and out-of-range
      indices.
    - [set] is stdpp's [gset], [dict] is stdpp's [gmap].
    - the [while] loop of [truncate_with_relevance] is run with fuel. *)

From Stdlib Require Import ZArith Ascii String DecimalString.
From stdpp Require Import base gmap sets list strings.

Open Scope Z_scope.

Abbreviation str := (list ascii).

(** A string literal of the source. *)
Definition lit (s : string) : str := list_ascii_of_string s.

(** ** Python built-ins used by the module *)

Module Py.

Definition len {A} (l : list A) : Z := Z.of_nat (length l).

(** [c.isspace()] for one character of the modelled range. *)
Definition isspace (c : ascii) : bool :=
  let n := N_of_ascii c in
  ((9 <=? n) && (n <=? 13) || (28 <=? n) && (n <=? 32)
   || (n =? 133) || (n =? 160))%N.

(** [c.lower()] for one character of the modelled range: A-Z and the
    Latin-1 capitals (all of U+00C0..U+00DE but the sign U+00D7). *)
Definition lower_char (c : ascii) : ascii :=
  let n := N_of_ascii c in
  if ((65 <=? n) && (n <=? 90)
      || (192 <=? n) && (n <=? 222) && negb (n =? 215))%N
  then ascii_of_N (n + 32) else c.

(** [s.lower()] *)
Definition lower (s : str) : str := map lower_char s.

Fixpoint lstrip (s : str) : str :=
  match s with
  | c :: s' => if isspace c then lstrip s' else s
  | [] => []
  end.

Definition rstrip (s : str) : str := reverse (lstrip (reverse s)).

(** [s.strip()] *)
Definition strip (s : str) : str := rstrip (lstrip s).

(** [s.split()]: the maximal runs of non-space characters; [cur] is
    the run being read. *)
Fixpoint split_from (cur : str) (s : str) : list str :=
  match s with
  | [] => if decide (cur = []) then [] else [cur]
  | c :: s' =>
      if isspace c
      then (if decide (cur = []) then split_from [] s'
            else cur :: split_from [] s')
      else split_from (cur ++ [c]) s'
  end.

Definition split (s : str) : list str := split_from [] s.

(** An index of a slice brought into [0..n], as Python does it. *)
Definition clamp (n i : Z) : Z :=
  if i <? 0 then Z.max 0 (n + i) else Z.min i n.

(** [s[start:stop]] *)
Definition slice {A} (s : list A) (start stop : Z) : list A :=
  let a := clamp (len s) start in
  let b := clamp (len s) stop in
  take (Z.to_nat (b - a)) (drop (Z.to_nat a) s).

(** [s[:stop]] *)
Definition slice_to {A} (s : list A) (stop : Z) : list A := slice s 0 stop.

(** [sep.join(l)] *)
Fixpoint join (sep : str) (l : list str) : str :=
  match l with
  | [] => []
  | [x] => x
  | x :: l' => x ++ sep ++ join sep l'
  end.

(** [sum(len(r) for r in l)] *)
Definition sum_len (l : list str) : Z := foldr (fun r acc => len r + acc) 0 l.

(** The loop of [max(l, key=key)] once the first item is taken:
    a later item replaces the best one only when its key is
    strictly greater. *)
Fixpoint max_from {A} (key : A -> nat) (best : A) (rest : list A) : A :=
  match rest with
  | [] => best
  | x :: rest' =>
      if (key best <? key x)%nat then max_from key x rest'
      else max_from key best rest'
  end.

(** [max(l, key=key)]; [None] stands for the [ValueError] raised on an
    empty list. *)
Definition max_key {A} (key : A -> nat) (l : list A) : option A :=
  match l with
  | [] => None
  | x :: rest => Some (max_from key x rest)
  end.

(** [re.sub(r"\s+", " ", s)]: [in_run] tells that the previous
    character was white space, already replaced. *)
Fixpoint sub_spaces_from (in_run : bool) (s : str) : str :=
  match s with
  | [] => []
  | c :: s' =>
      if isspace c
      then (if in_run then sub_spaces_from true s'
            else " "%char :: sub_spaces_from true s')
      else c :: sub_spaces_from false s'
  end.

Definition sub_spaces (s : str) : str := sub_spaces_from false s.

(** The match of [[^>]+>] at the head of [s], if any: the number of
    characters it takes. *)
Definition tag_rest (s : str) : option nat :=
  match s with
  | [] => None
  | c :: _ =>
      if decide (c = ">"%char) then None
      else match list_find (fun d => d = ">"%char) s with
           | Some (i, _) => Some (S i)
           | None => None
           end
  end.

(** [re.sub(r"<[^>]+>", " ", s)]: [skip] counts the characters of the
    current match that are still to be dropped. *)
Fixpoint sub_tags_from (skip : nat) (s : str) : str :=
  match s with
  | [] => []
  | c :: s' =>
      match skip with
      | S k => sub_tags_from k s'
      | O =>
          if decide (c = "<"%char)
          then match tag_rest s' with
               | Some k => " "%char :: sub_tags_from k s'
               | None => c :: sub_tags_from O s'
               end
          else c :: sub_tags_from O s'
      end
  end.

Definition sub_tags (s : str) : str := sub_tags_from O s.

(** The values a result dictionary holds. *)
Inductive value : Type :=
| VNone
| VBool (b : bool)
| VInt (z : Z)
| VStr (s : str).

(** [str(v)] *)
Definition to_str (v : value) : str :=
  match v with
  | VNone => lit "None"
  | VBool true => lit "True"
  | VBool false => lit "False"
  | VInt z => lit (NilEmpty.string_of_int (Z.to_int z))
  | VStr s => s
  end.

End Py.

(** ** The module [research.py] *)

(** A result dictionary, [dict[str, Any]]. *)
Abbreviation record := (gmap str Py.value).

(** The separator of [budget_context]: two line feeds. *)
Definition sep : str := ["010"%char; "010"%char].

(** [set(s.lower().split())] *)
Definition word_set (s : str) : gset str := list_to_set (Py.split (Py.lower s)).

(** The inner function [score_chunk], closed over [query_words]. *)
Definition score_chunk (query_words : gset str) (chunk : str) : nat :=
  let chunk_words := word_set chunk in
  size (query_words ∩ chunk_words).

(** The [while] loop of [truncate_with_relevance], from the state
    [(start, chunks)]; [None] when the fuel runs out. *)
Fixpoint chunk_loop (fuel : nat) (text : str) (chunk_size overlap : Z)
    (start : Z) (chunks : list str) : option (list str) :=
  match fuel with
  | O => None
  | S fuel' =>
      if start <? Py.len text
      then chunk_loop fuel' text chunk_size overlap
             (start + (chunk_size - overlap))
             (chunks ++ [Py.slice text start (start + chunk_size)])
      else Some chunks
  end.

Definition truncate_with_relevance (fuel : nat) (text query : str)
    (max_chars : Z) : option str :=
  if Py.len text <=? max_chars then Some text
  else
    let query_words := word_set query in
    let chunk_size := max_chars in
    let overlap := max_chars / 4 in
    match chunk_loop fuel text chunk_size overlap 0 [] with
    | None => None
    | Some chunks =>
        match Py.max_key (score_chunk query_words) chunks with
        | None => Some (Py.slice_to text max_chars)
        | Some best_chunk => Some (Py.slice_to best_chunk max_chars)
        end
    end.

Definition format_research_result (title source content : str) : str :=
  lit "[Source: " ++ source ++ lit "] " ++ title ++ lit ": " ++ content.

(** [str(result.get("content", ""))] *)
Definition content_of (result : record) : str :=
  Py.to_str (default (Py.VStr []) (result !! lit "content")).

(** The fingerprint computed in the loop of [deduplicate_results]. *)
Definition fingerprint (result : record) : str :=
  Py.sub_spaces (Py.strip (Py.lower (Py.slice_to (content_of result) 200))).

(** One turn of the [for] loop of [deduplicate_results] on the state
    [(seen_fingerprints, unique_results)]. *)
Definition dedup_step (st : gset str * list record) (result : record)
    : gset str * list record :=
  let '(seen_fingerprints, unique_results) := st in
  if decide (fingerprint result ∉ seen_fingerprints)
  then ({[fingerprint result]} ∪ seen_fingerprints, unique_results ++ [result])
  else (seen_fingerprints, unique_results).

Definition deduplicate_results (results : list record) : list record :=
  snd (foldl dedup_step (∅, []) results).

Definition budget_context (results : list str) (max_total_chars : Z) : str :=
  match results with
  | [] => []
  | _ =>
      if Py.sum_len results <=? max_total_chars then Py.join sep results
      else
        let per_result_budget := max_total_chars / Py.len results in
        let truncated := map (fun r => Py.slice_to r per_result_budget) results in
        Py.join sep truncated
  end.

(** The library call [trafilatura.extract(raw, include_comments=False,
    include_tables=True, no_fallback=False)] is outside the repository:
    it is a parameter, a function that yields a string or [None]. *)
Section Extraction.

Variable trafilatura_extract : str -> option str.

Definition extract_content (raw : str) : str :=
  if decide (raw = [] \/ Py.strip raw = []) then []
  else
    let extracted := trafilatura_extract raw in
    let cleaned := Py.sub_tags raw in
    let cleaned := Py.sub_spaces cleaned in
    match extracted with
    | Some extracted =>
        if decide (extracted <> [] /\ Py.strip extracted <> [])
        then Py.strip extracted
        else Py.strip cleaned
    | None => Py.strip cleaned
    end.

(** The first strategy yields nothing usable. *)
Definition primary_empty (raw : str) : Prop :=
  match trafilatura_extract raw with
  | None => True
  | Some extracted => extracted = [] \/ Py.strip extracted = []
  end.

Definition process_search_results (fuel : nat) (raw_results query source_name : str)
    : option str :=
  let extracted := extract_content raw_results in
  if decide (extracted = []) then Some []
  else
    match truncate_with_relevance fuel extracted query 1000 with
    | None => None
    | Some truncated => Some (format_research_result query source_name truncated)
    end.

End Extraction.

(** ** Notions the properties are stated with *)

(** The library finding no article body, as on plain text. *)
Definition no_article : str -> option str := fun _ => None.

(** [r] occurs in [text] as a contiguous run of characters. *)
Definition substring_of (r text : str) : Prop :=
  exists pre post, text = pre ++ r ++ post.

(** The records of a batch whose fingerprint does not occur in an earlier
    record of the batch, in the order of the batch. *)
Definition first_occurrences (results : list record) : list record :=
  snd <$> filter
    (fun ir : nat * record =>
       fingerprint ir.2 ∉ fingerprint <$> take ir.1 results)
    (imap pair results).

(** A record whose content is absent or the empty string. *)
Definition empty_content (result : record) : Prop :=
  result !! lit "content" = None \/ result !! lit "content" = Some (Py.VStr []).

(** The chunk the loop appends at its turn [k], counted from a turn
    that began at [start]. *)
Definition chunk_at (text : str) (chunk_size overlap start : Z) (k : nat) : str :=
  Py.slice text (start + Z.of_nat k * (chunk_size - overlap))
    (start + Z.of_nat k * (chunk_size - overlap) + chunk_size).

(** The window of [text] that starts at [k] strides. *)
Definition window (text : str) (max_chars : Z) (k : nat) : str :=
  let stride := max_chars - max_chars / 4 in
  Py.slice text (Z.of_nat k * stride) (Z.of_nat k * stride + max_chars).

(** ** The module [tools.py] *)

(** What the wrapper reads of the wrapped [BaseTool]: its name, its
    description and its method [run], whose result is any value. *)
Record base_tool : Type := {
  base_name : str;
  base_description : str;
  base_run : str -> Py.value
}.

(** The [Tool] the wrapper builds; [func] takes the fuel of the
    truncation loop. *)
Record tool : Type := {
  name : str;
  description : str;
  func : nat -> str -> option str
}.

Section Tools.

Variable trafilatura_extract : str -> option str.

(** The inner function [processed_run] of the wrapper. *)
Definition processed_run (tool_fn : base_tool) (source_name : str)
    (fuel : nat) (query : str) : option str :=
  let raw := base_run tool_fn query in
  process_search_results trafilatura_extract fuel (Py.to_str raw) query
    source_name.

Definition _wrap_with_research_processing (tool_fn : base_tool)
    (source_name : str) : tool :=
  {| name := base_name tool_fn;
     description := base_description tool_fn;
     func := processed_run tool_fn source_name |}.

End Tools.

(** A tool that answers [None] to every query. *)
Definition silent_tool : base_tool :=
  {| base_name := lit "wikipedia_lookup";
     base_description := lit "Wikipedia lookup";
     base_run := fun _ => Py.VNone |}.

(** The text before the content in a formatted result. *)
Definition attribution (title source : str) : str :=
  lit "[Source: " ++ source ++ lit "] " ++ title ++ lit ": ".

(** ** The notions of the specification *)

(** The white-space characters of the modelled range, by code point:
    tab, line feed, vertical tab, form feed, carriage return, the four
    separators U+001C..U+001F, space, next line, no-break space. *)
Definition whitespace_table : list ascii :=
  ["009"; "010"; "011"; "012"; "013"; "028"; "029"; "030"; "031"; "032";
   "133"; "160"]%char.

(** The capital letters of the modelled range, each with its small
    letter: A-Z, and the Latin-1 capitals U+00C0..U+00DE. *)
Definition lower_table : list (ascii * ascii) :=
  [ ("065", "097"); ("066", "098"); ("067", "099"); ("068", "100");
     ("069", "101"); ("070", "102"); ("071", "103"); ("072", "104");
     ("073", "105"); ("074", "106"); ("075", "107"); ("076", "108");
     ("077", "109"); ("078", "110"); ("079", "111"); ("080", "112");
     ("081", "113"); ("082", "114"); ("083", "115"); ("084", "116");
     ("085", "117"); ("086", "118"); ("087", "119"); ("088", "120");
     ("089", "121"); ("090", "122"); ("192", "224"); ("193", "225");
     ("194", "226"); ("195", "227"); ("196", "228"); ("197", "229");
     ("198", "230"); ("199", "231"); ("200", "232"); ("201", "233");
     ("202", "234"); ("203", "235"); ("204", "236"); ("205", "237");
     ("206", "238"); ("207", "239"); ("208", "240"); ("209", "241");
     ("210", "242"); ("211", "243"); ("212", "244"); ("213", "245");
     ("214", "246"); ("216", "248"); ("217", "249"); ("218", "250");
     ("219", "251"); ("220", "252"); ("221", "253"); ("222", "254") ]%char.

(** The small letter of a capital of the table, any other character
    itself. *)
Definition to_lower (c : ascii) : ascii :=
  match list_find (fun p : ascii * ascii => p.1 = c) lower_table with
  | Some (_, (_, small)) => small
  | None => c
  end.

(** [w] is a word of [s]: a run of characters with no white space in it,
    not empty, with white space or an end of [s] on either side. *)
Definition is_word (w s : str) : Prop :=
  w <> []
  /\ Forall (fun c => Py.isspace c = false) w
  /\ exists pre post : str,
       s = pre ++ w ++ post
       /\ (forall c, last pre = Some c -> Py.isspace c = true)
       /\ (forall c, head post = Some c -> Py.isspace c = true).

(** ** [extract_content] with a library call that may raise *)

(** The outcome of a call: an exception, or a value. *)
Inductive outcome (A : Type) : Type :=
| Raised
| Returned (a : A).

Arguments Raised {A}.
Arguments Returned {A} a.

Section ExtractionRaising.

(** [trafilatura.extract] as a call that raises or returns a string or
    [None]. *)
Variable trafilatura_call : str -> outcome (option str).

(** [extract_content] as written: nothing catches an exception of the
    library call, so it leaves the function. *)
Definition extract_content_call (raw : str) : outcome str :=
  if decide (raw = [] \/ Py.strip raw = []) then Returned []
  else
    match trafilatura_call raw with
    | Raised => Raised
    | Returned extracted =>
        let cleaned := Py.sub_tags raw in
        let cleaned := Py.sub_spaces cleaned in
        match extracted with
        | Some extracted =>
            if decide (extracted <> [] /\ Py.strip extracted <> [])
            then Returned (Py.strip extracted)
            else Returned (Py.strip cleaned)
        | None => Returned (Py.strip cleaned)
        end
    end.

End ExtractionRaising.

(** A library call that raises on every input. *)
Definition failing_call : str -> outcome (option str) := fun _ => Raised.

(** A library call that returns [None] on every input. *)
Definition empty_call : str -> outcome (option str) := fun _ => Returned None.

(** ** Slices *)

Section Slices.
Context {A : Type}.
Implicit Types s : list A.

Lemma clamp_nonneg n i : 0 <= n -> 0 <= i -> Py.clamp n i = Z.min i n.
Proof. intros _ Hi. unfold Py.clamp. destruct (Z.ltb_spec i 0); lia. Qed.

Lemma clamp_range n i : 0 <= n -> 0 <= Py.clamp n i <= n.
Proof. intros Hn. unfold Py.clamp. destruct (Z.ltb_spec i 0); lia. Qed.

Lemma slice_nonneg s a b :
  0 <= a -> 0 <= b ->
  Py.slice s a b = take (Z.to_nat b - Z.to_nat a) (drop (Z.to_nat a) s).
Proof.
  intros Ha Hb. unfold Py.slice, Py.len.
  rewrite !clamp_nonneg by lia.
  destruct (Z.le_gt_cases a (Z.of_nat (length s))) as [Hle|Hgt].
  - rewrite (Z.min_l a) by lia.
    destruct (Z.le_gt_cases b (Z.of_nat (length s))) as [Hb'|Hb'].
    + f_equal. lia.
    + rewrite !take_ge; [done | rewrite length_drop; lia ..].
  - rewrite !drop_ge by lia. by rewrite !take_nil.
Qed.

Lemma slice_to_nonneg s b : 0 <= b -> Py.slice_to s b = take (Z.to_nat b) s.
Proof.
  intros Hb. unfold Py.slice_to. rewrite slice_nonneg by lia.
  simpl. f_equal. lia.
Qed.

Lemma slice_to_length s b : 0 <= b -> Py.len (Py.slice_to s b) <= b.
Proof.
  intros Hb. rewrite slice_to_nonneg by done.
  unfold Py.len. rewrite length_take. lia.
Qed.

Lemma slice_to_short s b : Py.len s <= b -> Py.slice_to s b = s.
Proof.
  intros Hb. unfold Py.len in Hb. rewrite slice_to_nonneg by lia.
  apply take_ge. lia.
Qed.

Lemma slice_length s a b : 0 <= a -> 0 <= b - a -> Py.len (Py.slice s a b) <= b - a.
Proof.
  intros Ha Hb. rewrite slice_nonneg by lia.
  unfold Py.len. rewrite length_take. lia.
Qed.

End Slices.

(** ** Substrings *)

Lemma substring_of_refl (s : str) : substring_of s s.
Proof. exists [], []. by rewrite app_nil_r. Qed.

Lemma substring_of_take_drop (s : str) (n m : nat) :
  substring_of (take n (drop m s)) s.
Proof.
  exists (take m s), (drop n (drop m s)).
  by rewrite take_drop, take_drop.
Qed.

Lemma substring_of_trans (r s t : str) :
  substring_of r s -> substring_of s t -> substring_of r t.
Proof.
  intros (p1 & q1 & ->) (p2 & q2 & ->).
  exists (p2 ++ p1), (q1 ++ q2). by rewrite <- !app_assoc.
Qed.

Lemma slice_substring (s : str) (a b : Z) : substring_of (Py.slice s a b) s.
Proof. apply substring_of_take_drop. Qed.

(** ** The first maximum *)

Section FirstMax.
Context {A : Type} (key : A -> nat).

Lemma max_from_spec (best : A) (rest : list A) :
  exists i : nat,
    (best :: rest) !! i = Some (Py.max_from key best rest)
    /\ (forall j x, (best :: rest) !! j = Some x ->
          (key x <= key (Py.max_from key best rest))%nat)
    /\ (forall j x, (j < i)%nat -> (best :: rest) !! j = Some x ->
          (key x < key (Py.max_from key best rest))%nat).
Proof.
  revert best. induction rest as [|x rest IH]; intros best; simpl.
  - exists 0%nat. split; [done|]. split.
    + intros [|j] y Hj; simplify_eq/=. lia.
    + intros j y Hj. lia.
  - destruct (Nat.ltb_spec (key best) (key x)) as [Hlt|Hge].
    + destruct (IH x) as (i & Hi & Hall & Hbefore).
      pose proof (Hall 0%nat x eq_refl) as Hx.
      exists (S i). split; [done|]. split.
      * intros [|j] y Hj; simplify_eq/=; [lia | by eapply Hall].
      * intros [|j] y Hlt' Hj; simplify_eq/=; [lia|].
        eapply Hbefore; [|done]. lia.
    + destruct (IH best) as (i & Hi & Hall & Hbefore).
      pose proof (Hall 0%nat best eq_refl) as Hb.
      destruct i as [|i].
      * exists 0%nat. simpl in Hi. split; [done|]. split.
        -- intros [|[|j]] y Hj; simplify_eq/=; [lia | lia |].
           by apply (Hall (S j)).
        -- intros j y Hj. lia.
      * exists (S (S i)). split; [done|]. split.
        -- intros [|[|j]] y Hj; simplify_eq/=; [lia | | by apply (Hall (S j))].
           pose proof (Hbefore 0%nat best ltac:(lia) eq_refl). lia.
        -- intros [|[|j]] y Hlt' Hj; simplify_eq/=.
           ++ apply (Hbefore 0%nat); [lia | done].
           ++ pose proof (Hbefore 0%nat best ltac:(lia) eq_refl). lia.
           ++ apply (Hbefore (S j)); [lia | done].
Qed.

End FirstMax.

(** ** The chunking loop *)

Section Chunks.
Variables (text : str) (chunk_size overlap : Z).
Hypothesis stride_pos : 0 < chunk_size - overlap.

Lemma chunk_loop_spec (fuel : nat) (start : Z) (chunks : list str) :
  0 <= start ->
  (Z.to_nat (Py.len text - start) < fuel)%nat ->
  exists n : nat,
    chunk_loop fuel text chunk_size overlap start chunks
      = Some (chunks ++ map (chunk_at text chunk_size overlap start) (seq 0 n))
    /\ (forall k : nat, (k < n)%nat ->
          start + Z.of_nat k * (chunk_size - overlap) < Py.len text)
    /\ Py.len text <= start + Z.of_nat n * (chunk_size - overlap).
Proof.
  revert start chunks.
  induction fuel as [|fuel IH]; intros start chunks Hstart Hfuel; [lia|].
  simpl. destruct (Z.ltb_spec start (Py.len text)) as [Hlt|Hge].
  - destruct (IH (start + (chunk_size - overlap))
                (chunks ++ [Py.slice text start (start + chunk_size)]))
      as (n & Hrun & Hin & Hout); [lia | lia |].
    exists (S n). split; [|split].
    + rewrite Hrun. f_equal. rewrite <- app_assoc. f_equal.
      change (seq 0 (S n)) with (0%nat :: seq 1 n).
      rewrite <- fmap_S_seq. simpl. f_equal.
      * unfold chunk_at. f_equal; lia.
      * rewrite <- list_fmap_compose. apply list_fmap_ext.
        intros i k _. unfold chunk_at. simpl. f_equal; lia.
    + intros [|k] Hk; [lia|].
      specialize (Hin k ltac:(lia)). lia.
    + lia.
  - exists 0%nat. split; [|split].
    + simpl. by rewrite app_nil_r.
    + intros k Hk. lia.
    + lia.
Qed.

End Chunks.

(** ** Relevance truncation *)

Lemma stride_bounds (max_chars : Z) :
  0 < max_chars ->
  0 < max_chars - max_chars / 4 <= max_chars.
Proof. intros H. Z.div_mod_to_equations. lia. Qed.

Lemma window_lookup (text : str) (max_chars : Z) (n k : nat) (c : str) :
  map (window text max_chars) (seq 0 n) !! k = Some c ->
  (k < n)%nat /\ c = window text max_chars k.
Proof.
  rewrite list_lookup_fmap. intros H.
  destruct (seq 0 n !! k) as [k'|] eqn:Hk; simplify_eq/=.
  apply lookup_seq in Hk as [-> ?]. done.
Qed.

(** What the function does on a text longer than [max_chars]: the chunks
    are the windows [0..n-1] and the result is the first window of the
    greatest score, cut to [max_chars]. *)
Lemma truncate_long (fuel : nat) (text query : str) (max_chars : Z) :
  0 < max_chars -> max_chars < Py.len text -> (length text < fuel)%nat ->
  exists n best : nat,
    chunk_loop fuel text max_chars (max_chars / 4) 0 []
      = Some (map (window text max_chars) (seq 0 n))
    /\ (best < n)%nat
    /\ (forall k : nat, (k < n)%nat ->
          Z.of_nat k * (max_chars - max_chars / 4) < Py.len text)
    /\ Py.len text <= Z.of_nat n * (max_chars - max_chars / 4)
    /\ (forall k : nat, (k < n)%nat ->
          (score_chunk (word_set query) (window text max_chars k)
           <= score_chunk (word_set query) (window text max_chars best))%nat)
    /\ (forall k : nat, (k < best)%nat ->
          (score_chunk (word_set query) (window text max_chars k)
           < score_chunk (word_set query) (window text max_chars best))%nat)
    /\ truncate_with_relevance fuel text query max_chars
       = Some (Py.slice_to (window text max_chars best) max_chars).
Proof.
  intros Hmax Hlong Hfuel.
  pose proof (stride_bounds max_chars Hmax) as Hstride.
  destruct (chunk_loop_spec text max_chars (max_chars / 4) ltac:(lia)
              fuel 0 []) as (n & Hrun & Hin & Hout);
    [lia | unfold Py.len in *; lia |].
  simpl in Hrun.
  assert (Hchunks : chunk_loop fuel text max_chars (max_chars / 4) 0 []
            = Some (map (window text max_chars) (seq 0 n))).
  { rewrite Hrun. apply (f_equal Some), list_fmap_ext. intros i k _.
    unfold window. f_equal; lia. }
  clear Hrun.
  destruct n as [|n]; [lia|].
  unfold truncate_with_relevance.
  destruct (Z.leb_spec (Py.len text) max_chars) as [?|_]; [lia|].
  rewrite Hchunks. simpl.
  destruct (max_from_spec (score_chunk (word_set query))
              (window text max_chars 0)
              (map (window text max_chars) (seq 1 n)))
    as (best & Hbest & Hall & Hbefore).
  change (window text max_chars 0 :: map (window text max_chars) (seq 1 n))
    with (map (window text max_chars) (seq 0 (S n))) in *.
  apply window_lookup in Hbest as [Hlt Heq].
  exists (S n), best. rewrite <- Heq.
  split; [done|]. split; [done|].
  split; [intros k Hk; specialize (Hin k Hk); lia|].
  split; [lia|].
  split; [|split; [|done]].
  - intros k Hk. apply (Hall k).
    rewrite list_lookup_fmap, lookup_seq_lt by done. done.
  - intros k Hk. apply (Hbefore k); [done|].
    rewrite list_lookup_fmap, lookup_seq_lt by lia. done.
Qed.

Lemma window_length (text : str) (max_chars : Z) (k : nat) :
  0 < max_chars -> Py.len (window text max_chars k) <= max_chars.
Proof.
  intros Hmax. pose proof (stride_bounds max_chars Hmax).
  unfold window.
  etrans; [apply slice_length; nia|]. lia.
Qed.

(** More fuel does not change a result. *)
Lemma chunk_loop_fuel_mono (fuel fuel' : nat) (text : str)
    (chunk_size overlap start : Z) (chunks result : list str) :
  (fuel <= fuel')%nat ->
  chunk_loop fuel text chunk_size overlap start chunks = Some result ->
  chunk_loop fuel' text chunk_size overlap start chunks = Some result.
Proof.
  revert fuel' start chunks.
  induction fuel as [|fuel IH]; intros fuel' start chunks Hle Hrun; [done|].
  destruct fuel' as [|fuel']; [lia|].
  simpl in *. destruct (start <? Py.len text); [|done].
  apply IH; [lia | done].
Qed.

Lemma truncate_with_relevance_fuel_mono (fuel fuel' : nat) (text query : str)
    (max_chars : Z) (r : str) :
  (fuel <= fuel')%nat ->
  truncate_with_relevance fuel text query max_chars = Some r ->
  truncate_with_relevance fuel' text query max_chars = Some r.
Proof.
  intros Hle. unfold truncate_with_relevance.
  destruct (Py.len text <=? max_chars); [done|].
  destruct (chunk_loop fuel text max_chars (max_chars / 4) 0 [])
    as [chunks|] eqn:Hrun; [|done].
  by rewrite (chunk_loop_fuel_mono fuel fuel' _ _ _ _ _ chunks Hle Hrun).
Qed.

(** With a positive [max_chars] and fuel beyond the length of the text
    the function returns. *)
Lemma truncate_with_relevance_returns (fuel : nat) (text query : str)
    (max_chars : Z) :
  0 < max_chars -> (length text < fuel)%nat ->
  is_Some (truncate_with_relevance fuel text query max_chars).
Proof.
  intros Hmax Hfuel.
  destruct (Z.le_gt_cases (Py.len text) max_chars) as [Hshort|Hlong].
  - exists text. unfold truncate_with_relevance.
    destruct (Z.leb_spec (Py.len text) max_chars); [done | lia].
  - destruct (truncate_long fuel text query max_chars)
      as (n & best & _ & _ & _ & _ & _ & _ & Hres); [lia..|].
    by eexists.
Qed.

(** C1: for every text, every query and every positive [max_chars], the
    function returns (given fuel beyond the length of the text) and the
    returned string has at most [max_chars] characters. *)
Theorem truncate_with_relevance_length (fuel : nat) (text query : str)
    (max_chars : Z) :
  0 < max_chars -> (length text < fuel)%nat ->
  exists r : str,
    truncate_with_relevance fuel text query max_chars = Some r
    /\ Py.len r <= max_chars.
Proof.
  intros Hmax Hfuel.
  destruct (Z.le_gt_cases (Py.len text) max_chars) as [Hshort|Hlong].
  - exists text. split; [|done].
    unfold truncate_with_relevance.
    destruct (Z.leb_spec (Py.len text) max_chars); [done | lia].
  - destruct (truncate_long fuel text query max_chars)
      as (n & best & _ & _ & _ & _ & _ & _ & Hres); [lia..|].
    eexists. split; [exact Hres|].
    apply slice_to_length. lia.
Qed.

Lemma truncate_with_relevance_length_witness :
  0 < 3 /\ (length (lit "abcdefgh") < 9)%nat
  /\ exists r : str,
       truncate_with_relevance 9 (lit "abcdefgh") (lit "q") 3 = Some r
       /\ Py.len r <= 3.
Proof.
  split; [lia|]. split; [vm_compute; lia|].
  apply (truncate_with_relevance_length 9 (lit "abcdefgh") (lit "q") 3).
  - lia.
  - vm_compute. lia.
Defined.

Lemma window_take_drop (text : str) (max_chars : Z) (k : nat) :
  0 < max_chars ->
  window text max_chars k
  = take (Z.to_nat max_chars)
      (drop (Z.to_nat (Z.of_nat k * (max_chars - max_chars / 4))) text).
Proof.
  intros Hmax. pose proof (stride_bounds max_chars Hmax).
  unfold window. rewrite slice_nonneg by nia. f_equal. nia.
Qed.

Example truncate_with_relevance_ex :
  truncate_with_relevance 12 (lit "aa bb cc dd") (lit "CC") 4 = Some (lit "cc d")
  /\ truncate_with_relevance 12 (lit "aa bb cc dd") (lit "zz") 4 = Some (lit "aa b")
  /\ truncate_with_relevance 12 (lit "aa bb cc dd") (lit "zz") 0 = None.
Proof. repeat split; vm_compute; reflexivity. Qed.

(** Outside the domain of the properties: with [max_chars <= 0] the
    stride is not positive, and on a non-empty text the loop never ends,
    whatever the fuel. *)
Lemma chunk_loop_diverges (fuel : nat) (text : str) (chunk_size overlap : Z)
    (start : Z) (chunks : list str) :
  chunk_size - overlap <= 0 -> start <= 0 -> text <> [] ->
  chunk_loop fuel text chunk_size overlap start chunks = None.
Proof.
  intros Hstride Hstart Htext. revert start chunks Hstart.
  induction fuel as [|fuel IH]; intros start chunks Hstart; [done|].
  simpl. destruct (Z.ltb_spec start (Py.len text)) as [_|Hge].
  - apply IH. lia.
  - destruct text; [done|]. unfold Py.len in Hge. simpl in Hge. lia.
Qed.

(** X1: with [max_chars <= 0] and a text that is not empty the function
    never returns: no fuel is enough. *)
Lemma truncate_with_relevance_diverges (fuel : nat) (text query : str)
    (max_chars : Z) :
  max_chars <= 0 -> text <> [] ->
  truncate_with_relevance fuel text query max_chars = None.
Proof.
  intros Hmax Htext. unfold truncate_with_relevance.
  destruct (Z.leb_spec (Py.len text) max_chars) as [Hle|_].
  - destruct text; [done|]. unfold Py.len in Hle. simpl in Hle. lia.
  - rewrite chunk_loop_diverges; [done | | done | done].
    Z.div_mod_to_equations. lia.
Qed.

(** C7: a text of at most [max_chars] characters is returned unchanged,
    whatever the query (and whatever the fuel: the loop is not entered). *)
Theorem truncate_with_relevance_identity (fuel : nat) (text query : str)
    (max_chars : Z) :
  Py.len text <= max_chars ->
  truncate_with_relevance fuel text query max_chars = Some text.
Proof.
  intros Hshort. unfold truncate_with_relevance.
  destruct (Z.leb_spec (Py.len text) max_chars); [done | lia].
Qed.

Lemma truncate_with_relevance_identity_witness :
  Py.len (lit "The Tower") <= 1000
  /\ truncate_with_relevance 0 (lit "The Tower") (lit "Tower") 1000
     = Some (lit "The Tower").
Proof.
  split; [vm_compute; discriminate|].
  apply (truncate_with_relevance_identity 0 (lit "The Tower") (lit "Tower") 1000).
  vm_compute. discriminate.
Defined.

(** C10: for a positive [max_chars] the returned string occurs in the
    text as a contiguous run of characters. *)
Theorem truncate_with_relevance_substring (fuel : nat) (text query : str)
    (max_chars : Z) :
  0 < max_chars -> (length text < fuel)%nat ->
  exists r : str,
    truncate_with_relevance fuel text query max_chars = Some r
    /\ substring_of r text.
Proof.
  intros Hmax Hfuel.
  destruct (Z.le_gt_cases (Py.len text) max_chars) as [Hshort|Hlong].
  - exists text. split; [|apply substring_of_refl].
    unfold truncate_with_relevance.
    destruct (Z.leb_spec (Py.len text) max_chars); [done | lia].
  - destruct (truncate_long fuel text query max_chars)
      as (n & best & _ & _ & _ & _ & _ & _ & Hres); [lia..|].
    eexists. split; [exact Hres|].
    eapply substring_of_trans; apply slice_substring.
Qed.

Lemma truncate_with_relevance_substring_witness :
  0 < 4 /\ (length (lit "aa bb cc dd") < 12)%nat
  /\ exists r : str,
       truncate_with_relevance 12 (lit "aa bb cc dd") (lit "CC") 4 = Some r
       /\ substring_of r (lit "aa bb cc dd").
Proof.
  split; [lia|]. split; [vm_compute; lia|].
  apply (truncate_with_relevance_substring 12 (lit "aa bb cc dd") (lit "CC") 4).
  - lia.
  - vm_compute. lia.
Defined.

(** ** Deduplication *)

Lemma filter_ext_in {A} (P Q : A -> Prop) `{!forall x, Decision (P x)}
    `{!forall x, Decision (Q x)} (l : list A) :
  (forall x, x ∈ l -> P x <-> Q x) -> filter P l = filter Q l.
Proof.
  induction l as [|x l IH]; intros Hext; [done|].
  rewrite !filter_cons.
  rewrite IH by (intros y Hy; apply Hext; by right).
  destruct (decide (P x)) as [HP|HP], (decide (Q x)) as [HQ|HQ]; try done;
    exfalso; apply (Hext x) in HP || apply (Hext x) in HQ; done || by left.
Qed.

Lemma filter_none {A} (P : A -> Prop) `{!forall x, Decision (P x)} (l : list A) :
  (forall x, x ∈ l -> ~ P x) -> filter P l = [].
Proof.
  induction l as [|x l IH]; intros Hno; [done|].
  rewrite filter_cons_False by (apply Hno; by left).
  apply IH. intros y Hy. apply Hno. by right.
Qed.

Lemma first_occurrences_snoc (results : list record) (r : record) :
  first_occurrences (results ++ [r])
  = first_occurrences results
    ++ (if decide (fingerprint r ∉ fingerprint <$> results) then [r] else []).
Proof.
  unfold first_occurrences.
  rewrite imap_app, filter_app, fmap_app. f_equal.
  - f_equal. apply filter_ext_in. intros [i x] Hin.
    apply elem_of_lookup_imap in Hin as (j & y & [= -> ->] & Hj).
    apply lookup_lt_Some in Hj. simpl.
    by rewrite take_app_le by lia.
  - simpl. rewrite filter_cons, filter_nil. simpl.
    rewrite Nat.add_0_r, take_app_length.
    by destruct (decide (fingerprint r ∉ fingerprint <$> results)).
Qed.

Lemma first_occurrences_sublist (results : list record) :
  first_occurrences results `sublist_of` results.
Proof.
  induction results as [|r results IH] using rev_ind; [done|].
  rewrite first_occurrences_snoc.
  destruct (decide (fingerprint r ∉ fingerprint <$> results)).
  - by apply sublist_app.
  - rewrite app_nil_r. by apply sublist_inserts_r.
Qed.

Lemma first_occurrences_NoDup (results : list record) :
  NoDup (fingerprint <$> first_occurrences results).
Proof.
  induction results as [|r results IH] using rev_ind; [constructor|].
  rewrite first_occurrences_snoc.
  destruct (decide (fingerprint r ∉ fingerprint <$> results)) as [Hnew|Hold].
  - rewrite fmap_app. apply NoDup_app. split; [done|]. split.
    + intros fp Hfp [->|Hnil]%elem_of_cons; [|by apply elem_of_nil in Hnil].
      apply Hnew.
      apply list_elem_of_fmap in Hfp as (x & -> & Hx).
      apply list_elem_of_fmap. exists x. split; [done|].
      eapply elem_of_sublist; [done | apply first_occurrences_sublist].
    + apply NoDup_singleton.
  - by rewrite app_nil_r.
Qed.

Lemma first_occurrences_id (results : list record) :
  NoDup (fingerprint <$> results) -> first_occurrences results = results.
Proof.
  induction results as [|r results IH] using rev_ind; intros Hnd; [done|].
  rewrite fmap_app in Hnd. apply NoDup_app in Hnd as (Hnd & Hnew & _).
  rewrite first_occurrences_snoc, IH by done.
  rewrite decide_True; [done|].
  intros Hin. apply (Hnew _ Hin). by left.
Qed.

(** The loop invariant: the set holds the fingerprints read so far and
    the list holds their first occurrences. *)
Lemma dedup_loop_spec (results : list record) :
  foldl dedup_step (∅, []) results
  = (list_to_set (fingerprint <$> results), first_occurrences results).
Proof.
  induction results as [|r results IH] using rev_ind; [done|].
  rewrite foldl_snoc, IH, first_occurrences_snoc. unfold dedup_step.
  rewrite fmap_app, list_to_set_app_L. simpl.
  destruct (decide (fingerprint r ∉ list_to_set (fingerprint <$> results)))
    as [Hnew|Hold].
  - rewrite decide_True by (by rewrite <- (elem_of_list_to_set (C := gset str))).
    f_equal. rewrite (right_id_L ∅ (∪)). apply (comm_L (∪)).
  - rewrite decide_False by (by rewrite <- (elem_of_list_to_set (C := gset str))).
    rewrite app_nil_r. f_equal.
    apply dec_stable in Hold. rewrite (right_id_L ∅ (∪)).
    symmetry. rewrite (comm_L (∪)).
    apply subseteq_union_1_L. by apply singleton_subseteq_l.
Qed.

Lemma deduplicate_results_first (results : list record) :
  deduplicate_results results = first_occurrences results.
Proof. unfold deduplicate_results. by rewrite dedup_loop_spec. Qed.

Lemma empty_content_fingerprint (r : record) :
  empty_content r -> fingerprint r = [].
Proof. unfold fingerprint, content_of. by intros [-> | ->]. Qed.

Example deduplicate_results_ex :
  deduplicate_results
    [ {[lit "content" := Py.VStr (lit "abc")]};
      {[lit "content" := Py.VStr (lit " ABC  ")]};
      ∅;
      {[lit "content" := Py.VStr (lit "xyz"); lit "id" := Py.VInt 3]};
      {[lit "content" := Py.VStr []]} ]
  = [ {[lit "content" := Py.VStr (lit "abc")]};
      ∅;
      {[lit "content" := Py.VStr (lit "xyz"); lit "id" := Py.VInt 3]} ].
Proof. vm_compute. reflexivity. Qed.

(** C5: deduplicating a deduplicated batch changes nothing. *)
Theorem deduplicate_results_idempotent (results : list record) :
  deduplicate_results (deduplicate_results results)
  = deduplicate_results results.
Proof.
  rewrite !deduplicate_results_first.
  apply first_occurrences_id, first_occurrences_NoDup.
Qed.

(** ** Context budget *)

Lemma join_length (sp : str) (l : list str) :
  l <> [] ->
  Py.len (Py.join sp l) = Py.sum_len l + Py.len sp * (Py.len l - 1).
Proof.
  induction l as [|x l IH]; intros Hne; [done|].
  destruct l as [|y l].
  - simpl. unfold Py.len. simpl. lia.
  - change (Py.join sp (x :: y :: l)) with (x ++ sp ++ Py.join sp (y :: l)).
    change (Py.sum_len (x :: y :: l)) with (Py.len x + Py.sum_len (y :: l)).
    unfold Py.len in *. rewrite !length_app, !Nat2Z.inj_add, IH by done.
    simpl length. lia.
Qed.

Lemma sum_len_truncated (l : list str) (budget : Z) :
  0 <= budget ->
  Py.sum_len (map (fun r => Py.slice_to r budget) l) <= Py.len l * budget.
Proof.
  intros Hb. induction l as [|x l IH]; [unfold Py.len; simpl; lia|].
  simpl. pose proof (slice_to_length x budget Hb).
  unfold Py.len in *. simpl length. lia.
Qed.

Lemma budget_context_over (results : list str) (max_total_chars : Z) :
  max_total_chars < Py.sum_len results ->
  budget_context results max_total_chars
  = Py.join sep
      (map (fun r => Py.slice_to r (max_total_chars / Py.len results)) results).
Proof.
  intros Hover. destruct results as [|x l]; [done|].
  unfold budget_context.
  destruct (Z.leb_spec (Py.sum_len (x :: l)) max_total_chars); [lia | done].
Qed.

Lemma budget_context_within (results : list str) (max_total_chars : Z) :
  Py.sum_len results <= max_total_chars ->
  budget_context results max_total_chars = Py.join sep results.
Proof.
  intros Hin. destruct results as [|x l]; [done|].
  unfold budget_context.
  destruct (Z.leb_spec (Py.sum_len (x :: l)) max_total_chars); [done | lia].
Qed.

(** The pieces that [budget_context] joins. *)
Lemma budget_context_pieces (results : list str) (max_total_chars : Z) :
  0 < max_total_chars ->
  exists pieces : list str,
    budget_context results max_total_chars = Py.join sep pieces
    /\ length pieces = length results
    /\ Py.sum_len pieces <= max_total_chars.
Proof.
  intros Hmax.
  destruct (Z.le_gt_cases (Py.sum_len results) max_total_chars) as [Hin|Hover].
  - exists results. by rewrite budget_context_within.
  - eexists. split; [by apply budget_context_over; lia|].
    split; [by rewrite length_map|].
    destruct results as [|x l]; [simpl in *; lia|].
    assert (0 < Py.len (x :: l)) by (unfold Py.len; simpl; lia).
    etrans; [apply sum_len_truncated, Z.div_pos; lia|].
    apply Z.mul_div_le. done.
Qed.

(** C2 as stated fails: the separators are not counted in the budget. *)
Lemma budget_context_exceeds_budget :
  ~ (forall (results : list str) (max_total_chars : Z),
       0 < max_total_chars ->
       Py.len (budget_context results max_total_chars) <= max_total_chars).
Proof.
  intros Hclaim.
  specialize (Hclaim [lit "aaaa"; lit "bbbb"] 6 ltac:(lia)).
  vm_compute in Hclaim. by apply Hclaim.
Qed.

Example budget_context_exceeds_ex :
  budget_context [lit "aaaa"; lit "bbbb"] 6 = lit "aaa" ++ sep ++ lit "bbb"
  /\ budget_context [lit "abc"; lit "def"] 6 = lit "abc" ++ sep ++ lit "def".
Proof. split; reflexivity. Qed.

(** C2, amended: for a positive [max_total_chars] the joined pieces have
    at most [max_total_chars] characters in total, separators excluded;
    the returned string is longer than their sum by the two characters
    of each of the [len(results) - 1] separators. *)
Theorem budget_context_length (results : list str) (max_total_chars : Z) :
  0 < max_total_chars ->
  exists pieces : list str,
    budget_context results max_total_chars = Py.join sep pieces
    /\ length pieces = length results
    /\ Py.sum_len pieces <= max_total_chars
    /\ (results = [] -> budget_context results max_total_chars = [])
    /\ (results <> [] ->
        Py.len (budget_context results max_total_chars)
        = Py.sum_len pieces + 2 * (Py.len results - 1))
    /\ Py.len (budget_context results max_total_chars)
       <= max_total_chars + 2 * Z.max 0 (Py.len results - 1).
Proof.
  intros Hmax.
  destruct (budget_context_pieces results max_total_chars Hmax)
    as (pieces & Heq & Hlen & Hsum).
  exists pieces. split; [done|]. split; [done|]. split; [done|].
  split; [by intros ->|].
  assert (Hne : results <> [] ->
    Py.len (budget_context results max_total_chars)
    = Py.sum_len pieces + 2 * (Py.len results - 1)).
  { intros Hne. rewrite Heq, join_length.
    - unfold Py.len. rewrite Hlen. simpl. lia.
    - intros ->. by destruct results. }
  split; [done|].
  destruct results as [|x l]; [unfold Py.len; simpl; lia|].
  rewrite Hne by done. unfold Py.len in *. simpl length in *. lia.
Qed.

Lemma budget_context_length_witness :
  0 < 6
  /\ exists pieces : list str,
       budget_context [lit "aaaa"; lit "bbbb"] 6 = Py.join sep pieces
       /\ Py.sum_len pieces <= 6.
Proof.
  split; [lia|].
  destruct (budget_context_length [lit "aaaa"; lit "bbbb"] 6)
    as (pieces & Heq & _ & Hsum & _); [lia|].
  exists pieces. split; [exact Heq | exact Hsum].
Defined.

Example budget_context_short_ex :
  budget_context [lit "Short result 1"; lit "Short result 2"] 10000
  = lit "Short result 1" ++ sep ++ lit "Short result 2".
Proof. vm_compute. reflexivity. Qed.

(** ** Extraction and the pipeline *)

Lemma lstrip_spaces (s : str) :
  Forall (fun c => Py.isspace c = true) s -> Py.lstrip s = [].
Proof. induction 1 as [|c s Hc _ IH]; [done|]. simpl. by rewrite Hc. Qed.

Lemma strip_spaces (s : str) :
  Forall (fun c => Py.isspace c = true) s -> Py.strip s = [].
Proof. intros H. unfold Py.strip. by rewrite lstrip_spaces. Qed.

Lemma format_research_result_nonempty (title source content : str) :
  format_research_result title source content <> [].
Proof. done. Qed.

Section ExtractionProperties.

Variable trafilatura_extract : str -> option str.

(** C9: with fuel beyond the length of the extracted text,
    [process_search_results] returns [""] exactly when [extract_content]
    returns [""], and otherwise the formatted string
    ["[Source: {source}] {query}: {truncated}"] where [truncated] is the
    extracted text cut by [truncate_with_relevance] to 1000 characters. *)
Theorem process_search_results_composition (fuel : nat)
    (raw_results query source_name : str) :
  (length (extract_content trafilatura_extract raw_results) < fuel)%nat ->
  (process_search_results trafilatura_extract fuel raw_results query source_name
   = Some []
   <-> extract_content trafilatura_extract raw_results = [])
  /\ (extract_content trafilatura_extract raw_results <> [] ->
      exists truncated : str,
        truncate_with_relevance fuel
          (extract_content trafilatura_extract raw_results) query 1000
        = Some truncated
        /\ process_search_results trafilatura_extract fuel raw_results query
             source_name
           = Some (format_research_result query source_name truncated)
        /\ format_research_result query source_name truncated
           = lit "[Source: " ++ source_name ++ lit "] " ++ query ++ lit ": "
             ++ truncated)
  /\ process_search_results trafilatura_extract fuel [] (lit "query")
       (lit "source")
     = Some [].
Proof.
  intros Hfuel.
  destruct (truncate_with_relevance_returns fuel
              (extract_content trafilatura_extract raw_results) query 1000)
    as (truncated & Htrunc); [lia | done |].
  unfold process_search_results.
  split; [|split; [|done]].
  - destruct (decide (extract_content trafilatura_extract raw_results = []));
      [done|].
    rewrite Htrunc. split; [|done].
    intros Hnil. exfalso.
    apply (format_research_result_nonempty query source_name truncated).
    congruence.
  - intros Hne. exists truncated. rewrite decide_False by done.
    by rewrite Htrunc.
Qed.

End ExtractionProperties.

Lemma process_search_results_composition_witness :
  (length (extract_content no_article (lit "The Tower.")) < 11)%nat
  /\ extract_content no_article (lit "The Tower.") <> []
  /\ exists truncated : str,
       truncate_with_relevance 11 (extract_content no_article (lit "The Tower."))
         (lit "Tower tarot") 1000
       = Some truncated
       /\ process_search_results no_article 11 (lit "The Tower.")
            (lit "Tower tarot") (lit "duckduckgo")
          = Some (format_research_result (lit "Tower tarot") (lit "duckduckgo")
                    truncated).
Proof.
  assert (Hfuel : (length (extract_content no_article (lit "The Tower.")) < 11)%nat)
    by (vm_compute; lia).
  assert (Hne : extract_content no_article (lit "The Tower.") <> [])
    by (vm_compute; discriminate).
  split; [exact Hfuel|]. split; [exact Hne|].
  destruct (process_search_results_composition no_article 11 (lit "The Tower.")
              (lit "Tower tarot") (lit "duckduckgo") Hfuel)
    as (_ & Hcomp & _).
  destruct (Hcomp Hne) as (truncated & Htrunc & Hres & _).
  exists truncated. split; [exact Htrunc | exact Hres].
Defined.

(** ** The examples of the specification and of the unit tests *)

Example format_research_result_ex :
  format_research_result (lit "Tower") (lit "wikipedia") (lit "text")
  = lit "[Source: wikipedia] Tower: text".
Proof. reflexivity. Qed.

Example extract_content_blank_ex (extract : str -> option str) :
  extract_content extract [] = [] /\ extract_content extract (lit "   ") = [].
Proof. split; reflexivity. Qed.

Example process_search_results_ex :
  process_search_results no_article 11 (lit "The Tower.") (lit "Tower tarot")
    (lit "duckduckgo")
  = Some (lit "[Source: duckduckgo] Tower tarot: The Tower.").
Proof. vm_compute. reflexivity. Qed.

Example lower_ex : Py.lower (lit "The TOWER x") = lit "the tower x".
Proof. reflexivity. Qed.

Example split_ex :
  Py.split (lit "  the  tower
 card ") = [lit "the"; lit "tower"; lit "card"].
Proof. reflexivity. Qed.

Example strip_ex : Py.strip (lit "  a b  ") = lit "a b".
Proof. reflexivity. Qed.

Example slice_ex : Py.slice (lit "abcdef") 2 4 = lit "cd"
  /\ Py.slice (lit "abcdef") 4 100 = lit "ef"
  /\ Py.slice_to (lit "abcdef") (-2) = lit "abcd"
  /\ Py.slice (lit "abcdef") (-3) 5 = lit "de".
Proof. repeat split. Qed.

Example sub_tags_ex :
  Py.sub_tags (lit "a<>b<c>d<e<<f>><>>") = lit "a<>b d ><>>".
Proof. reflexivity. Qed.

Example sub_spaces_ex : Py.sub_spaces (lit "a  b
	c") = lit "a b c".
Proof. reflexivity. Qed.

Example to_str_ex : Py.to_str (Py.VInt (-12)) = lit "-12"
  /\ Py.to_str (Py.VInt 0) = lit "0".
Proof. split; reflexivity. Qed.

Example max_key_ex :
  Py.max_key (fun s : str => 1%nat) [lit "a"; lit "b"] = Some (lit "a").
Proof. reflexivity. Qed.

(** * Further properties of the code *)

(** ** White space *)

Lemma isspace_lower_char (c : ascii) :
  Py.isspace (Py.lower_char c) = Py.isspace c.
Proof. by destruct c as [[] [] [] [] [] [] [] []]. Qed.

Lemma lower_spaces (s : str) :
  Forall (fun c => Py.isspace c = true) s ->
  Forall (fun c => Py.isspace c = true) (Py.lower s).
Proof.
  intros H. unfold Py.lower. apply Forall_fmap.
  eapply Forall_impl; [exact H|]. intros c Hc. simpl.
  by rewrite isspace_lower_char.
Qed.

Lemma split_spaces (s : str) :
  Forall (fun c => Py.isspace c = true) s -> Py.split s = [].
Proof.
  unfold Py.split. induction 1 as [|c s Hc _ IH]; [done|].
  simpl. by rewrite Hc.
Qed.

Lemma score_chunk_blank_query (query chunk : str) :
  Forall (fun c => Py.isspace c = true) query ->
  score_chunk (word_set query) chunk = 0%nat.
Proof.
  intros Hq. unfold score_chunk, word_set at 1.
  rewrite split_spaces by (by apply lower_spaces). simpl.
  by rewrite (left_absorb_L ∅ (∩)), size_empty.
Qed.

(** ** Relevance truncation, beyond the stated properties *)

Lemma truncate_with_relevance_diverges_witness :
  0 <= 0 /\ lit "abc" <> []
  /\ truncate_with_relevance 1000 (lit "abc") (lit "q") 0 = None.
Proof.
  split; [lia|]. split; [discriminate|].
  apply (truncate_with_relevance_diverges 1000 (lit "abc") (lit "q") 0).
  - lia.
  - discriminate.
Defined.

(** X2: a query without a word (empty or white space only) scores every
    window 0, so the first window wins: the result is the first
    [max_chars] characters of the text. *)
Theorem truncate_blank_query_prefix (fuel : nat) (text query : str)
    (max_chars : Z) :
  0 < max_chars -> (length text < fuel)%nat ->
  Forall (fun c => Py.isspace c = true) query ->
  truncate_with_relevance fuel text query max_chars
  = Some (take (Z.to_nat max_chars) text).
Proof.
  intros Hmax Hfuel Hq.
  destruct (Z.le_gt_cases (Py.len text) max_chars) as [Hshort|Hlong].
  - rewrite take_ge by (unfold Py.len in Hshort; lia).
    unfold truncate_with_relevance.
    destruct (Z.leb_spec (Py.len text) max_chars); [done | lia].
  - destruct (truncate_long fuel text query max_chars)
      as (n & best & _ & _ & _ & _ & _ & Hbefore & Hres); [lia..|].
    destruct best as [|best].
    + rewrite Hres, slice_to_short by (by apply window_length).
      rewrite window_take_drop by done. by rewrite Z.mul_0_l.
    + specialize (Hbefore 0%nat ltac:(lia)).
      rewrite !score_chunk_blank_query in Hbefore by done. lia.
Qed.

Lemma truncate_blank_query_prefix_witness :
  0 < 4 /\ (length (lit "aa bb cc dd") < 12)%nat
  /\ Forall (fun c => Py.isspace c = true) (lit "  ")
  /\ truncate_with_relevance 12 (lit "aa bb cc dd") (lit "  ") 4
     = Some (lit "aa b").
Proof.
  assert (Hq : Forall (fun c => Py.isspace c = true) (lit "  "))
    by (repeat constructor).
  split; [lia|]. split; [vm_compute; lia|]. split; [exact Hq|].
  apply (truncate_blank_query_prefix 12 (lit "aa bb cc dd") (lit "  ") 4).
  - lia.
  - vm_compute. lia.
  - exact Hq.
Defined.

(** X3: on a text that is not empty the result is not empty either: the
    chosen window starts inside the text. *)
Theorem truncate_nonempty (fuel : nat) (text query : str) (max_chars : Z) :
  0 < max_chars -> (length text < fuel)%nat -> text <> [] ->
  exists r : str,
    truncate_with_relevance fuel text query max_chars = Some r /\ r <> [].
Proof.
  intros Hmax Hfuel Htext.
  destruct (Z.le_gt_cases (Py.len text) max_chars) as [Hshort|Hlong].
  - exists text. split; [|done]. unfold truncate_with_relevance.
    destruct (Z.leb_spec (Py.len text) max_chars); [done | lia].
  - destruct (truncate_long fuel text query max_chars)
      as (n & best & _ & Hbest & Hin & _ & _ & _ & Hres); [lia..|].
    eexists. split; [exact Hres|].
    rewrite slice_to_short by (by apply window_length).
    rewrite window_take_drop by done.
    specialize (Hin best Hbest). unfold Py.len in Hin.
    pose proof (stride_bounds max_chars Hmax) as Hstride.
    assert (0 <= Z.of_nat best * (max_chars - max_chars / 4))
      by (apply Z.mul_nonneg_nonneg; lia).
    intros Hnil. apply (f_equal length) in Hnil.
    rewrite length_take, length_drop in Hnil. simpl in Hnil. lia.
Qed.

Lemma truncate_nonempty_witness :
  0 < 4 /\ (length (lit "aa bb cc dd") < 12)%nat /\ lit "aa bb cc dd" <> []
  /\ exists r : str,
       truncate_with_relevance 12 (lit "aa bb cc dd") (lit "dd") 4 = Some r
       /\ r <> [].
Proof.
  split; [lia|]. split; [vm_compute; lia|]. split; [discriminate|].
  apply (truncate_nonempty 12 (lit "aa bb cc dd") (lit "dd") 4).
  - lia.
  - vm_compute. lia.
  - discriminate.
Defined.

(** ** Deduplication, beyond the stated properties *)

Lemma first_occurrences_fingerprints (results : list record) (fp : str) :
  fp ∈ fingerprint <$> first_occurrences results
  <-> fp ∈ fingerprint <$> results.
Proof.
  induction results as [|r results IH] using rev_ind; [done|].
  rewrite first_occurrences_snoc, !fmap_app, !elem_of_app, IH.
  change (fingerprint <$> [r]) with [fingerprint r].
  destruct (decide (fingerprint r ∉ fingerprint <$> results)) as [Hnew|Hold].
  - done.
  - apply dec_stable in Hold. rewrite fmap_nil, elem_of_nil.
    rewrite list_elem_of_singleton.
    split; [intros [?|?]; [by left | done]|].
    intros [? | ->]; by left.
Qed.

(** X4: no two records of the result have the same fingerprint. *)
Theorem deduplicate_results_distinct (results : list record) :
  NoDup (fingerprint <$> deduplicate_results results).
Proof. rewrite deduplicate_results_first. apply first_occurrences_NoDup. Qed.

(** X5: no fingerprint is lost: every record of the batch has the fingerprint
    of a record of the result. *)
Theorem deduplicate_results_representative (results : list record)
    (r : record) :
  r ∈ results ->
  exists r' : record,
    r' ∈ deduplicate_results results /\ fingerprint r' = fingerprint r.
Proof.
  intros Hr. rewrite deduplicate_results_first.
  assert (Hfp : fingerprint r ∈ fingerprint <$> first_occurrences results).
  { apply first_occurrences_fingerprints, list_elem_of_fmap. by exists r. }
  apply list_elem_of_fmap in Hfp as (r' & Heq & Hin). by exists r'.
Qed.

Lemma deduplicate_results_representative_witness :
  ({[lit "content" := Py.VStr (lit " ABC  ")]} : record)
    ∈ [ ({[lit "content" := Py.VStr (lit "abc")]} : record);
        {[lit "content" := Py.VStr (lit " ABC  ")]} ]
  /\ exists r' : record,
       r' ∈ deduplicate_results
              [ {[lit "content" := Py.VStr (lit "abc")]};
                {[lit "content" := Py.VStr (lit " ABC  ")]} ]
       /\ fingerprint r' = fingerprint {[lit "content" := Py.VStr (lit " ABC  ")]}.
Proof.
  assert (Hin : ({[lit "content" := Py.VStr (lit " ABC  ")]} : record)
    ∈ [ ({[lit "content" := Py.VStr (lit "abc")]} : record);
        {[lit "content" := Py.VStr (lit " ABC  ")]} ])
    by (right; left).
  split; [exact Hin|].
  exact (deduplicate_results_representative _ _ Hin).
Defined.

(** X6: the number of records returned is the number of distinct
    fingerprints of the batch. *)
Theorem deduplicate_results_count (results : list record) :
  length (deduplicate_results results)
  = size (list_to_set (fingerprint <$> results) : gset str).
Proof.
  rewrite deduplicate_results_first.
  rewrite <- (length_fmap fingerprint (first_occurrences results)).
  rewrite <- (size_list_to_set (C := gset str))
    by apply first_occurrences_NoDup.
  f_equal. apply set_eq. intros fp.
  rewrite !elem_of_list_to_set. apply first_occurrences_fingerprints.
Qed.

(** X7: a batch is returned unchanged exactly when its fingerprints are
    pairwise distinct. *)
Theorem deduplicate_results_fixed_point (results : list record) :
  deduplicate_results results = results
  <-> NoDup (fingerprint <$> results).
Proof.
  rewrite deduplicate_results_first. split.
  - intros Heq. rewrite <- Heq. apply first_occurrences_NoDup.
  - apply first_occurrences_id.
Qed.

(** X8: deduplicating a batch made of two parts: the first part deduplicated,
    then the records of the deduplicated second part whose fingerprint
    the first part does not have. *)
Theorem deduplicate_results_app (batch1 batch2 : list record) :
  deduplicate_results (batch1 ++ batch2)
  = deduplicate_results batch1
    ++ filter (fun r => fingerprint r ∉ fingerprint <$> batch1)
         (deduplicate_results batch2).
Proof.
  rewrite !deduplicate_results_first.
  induction batch2 as [|r batch2 IH] using rev_ind.
  - by rewrite !app_nil_r.
  - rewrite app_assoc, !first_occurrences_snoc, IH, filter_app, <- app_assoc.
    f_equal. f_equal. rewrite fmap_app.
    destruct (decide (fingerprint r ∉ fingerprint <$> batch2)) as [H2|H2].
    + rewrite filter_cons, filter_nil.
      destruct (decide (fingerprint r ∉ fingerprint <$> batch1)) as [H1|H1].
      * rewrite decide_True; [done|]. rewrite elem_of_app. tauto.
      * rewrite decide_False; [done|]. rewrite elem_of_app. tauto.
    + rewrite filter_nil, decide_False; [done|]. rewrite elem_of_app. tauto.
Qed.

Lemma lstrip_length (s : str) : (length (Py.lstrip s) <= length s)%nat.
Proof.
  induction s as [|c s IH]; [done|]. simpl.
  destruct (Py.isspace c); simpl; lia.
Qed.

Lemma strip_length (s : str) : (length (Py.strip s) <= length s)%nat.
Proof.
  unfold Py.strip, Py.rstrip. rewrite length_reverse.
  etrans; [apply lstrip_length|]. rewrite length_reverse.
  apply lstrip_length.
Qed.

Lemma sub_spaces_from_length (in_run : bool) (s : str) :
  (length (Py.sub_spaces_from in_run s) <= length s)%nat.
Proof.
  revert in_run. induction s as [|c s IH]; intros in_run; [done|]. simpl.
  pose proof (IH true). pose proof (IH false).
  destruct (Py.isspace c); [destruct in_run|]; simpl; lia.
Qed.

(** X9: for a content of characters in the modelled range
    U+0000..U+00FF, where lower-casing maps one character to one, the
    fingerprint has at most 200 characters. *)
Theorem fingerprint_length (result : record) :
  Py.len (fingerprint result) <= 200.
Proof.
  unfold fingerprint, Py.sub_spaces.
  pose proof (sub_spaces_from_length false
    (Py.strip (Py.lower (Py.slice_to (content_of result) 200)))).
  pose proof (strip_length (Py.lower (Py.slice_to (content_of result) 200)))
    as Hstrip.
  pose proof (slice_to_length (content_of result) 200 ltac:(lia)).
  unfold Py.lower in Hstrip at 2. rewrite length_map in Hstrip.
  unfold Py.len in *. lia.
Qed.

(** ** Trimming *)

Lemma lstrip_decomp (s : str) :
  exists sp : str,
    s = sp ++ Py.lstrip s /\ Forall (fun c => Py.isspace c = true) sp.
Proof.
  induction s as [|c s (sp & Heq & Hsp)]; [by exists []|].
  simpl. destruct (Py.isspace c) eqn:Hc.
  - exists (c :: sp). split; [simpl; by f_equal | by constructor].
  - by exists [].
Qed.

Lemma lstrip_head (s : str) (c : ascii) :
  head (Py.lstrip s) = Some c -> Py.isspace c = false.
Proof.
  induction s as [|d s IH]; [done|]. simpl.
  destruct (Py.isspace d) eqn:Hd; [done|]. simpl. by intros [= <-].
Qed.

Lemma lstrip_fixed (s : str) :
  (forall c, head s = Some c -> Py.isspace c = false) -> Py.lstrip s = s.
Proof.
  destruct s as [|c s]; [done|]. intros H. simpl. by rewrite (H c).
Qed.

Lemma lstrip_nil_spaces (s : str) :
  Py.lstrip s = [] -> Forall (fun c => Py.isspace c = true) s.
Proof.
  intros Hnil. destruct (lstrip_decomp s) as (sp & Heq & Hsp).
  rewrite Hnil, app_nil_r in Heq. by subst.
Qed.

Lemma rstrip_decomp (s : str) :
  exists sp : str,
    s = Py.rstrip s ++ sp /\ Forall (fun c => Py.isspace c = true) sp.
Proof.
  destruct (lstrip_decomp (reverse s)) as (sp & Heq & Hsp).
  exists (reverse sp). split; [|by apply Forall_reverse].
  unfold Py.rstrip. rewrite <- reverse_app, <- Heq.
  by rewrite reverse_involutive.
Qed.

Lemma strip_nil_spaces (s : str) :
  Py.strip s = [] -> Forall (fun c => Py.isspace c = true) s.
Proof.
  intros Hnil. unfold Py.strip in Hnil.
  destruct (rstrip_decomp (Py.lstrip s)) as (sp & Heq & Hsp).
  rewrite Hnil in Heq. simpl in Heq.
  destruct (lstrip_decomp s) as (sp' & Heq' & Hsp').
  rewrite Heq'. apply Forall_app. split; [done|]. by rewrite Heq.
Qed.

Lemma strip_head (s : str) (c : ascii) :
  head (Py.strip s) = Some c -> Py.isspace c = false.
Proof.
  unfold Py.strip. intros Hhead.
  destruct (rstrip_decomp (Py.lstrip s)) as (sp & Heq & _).
  apply (lstrip_head s). rewrite Heq.
  apply head_app_Some. by left.
Qed.

Lemma strip_last (s : str) (c : ascii) :
  last (Py.strip s) = Some c -> Py.isspace c = false.
Proof.
  unfold Py.strip, Py.rstrip. rewrite last_reverse. apply lstrip_head.
Qed.

Lemma strip_fixed (s : str) :
  (forall c, head s = Some c -> Py.isspace c = false) ->
  (forall c, last s = Some c -> Py.isspace c = false) ->
  Py.strip s = s.
Proof.
  intros Hhead Hlast. unfold Py.strip, Py.rstrip.
  rewrite (lstrip_fixed s Hhead), lstrip_fixed.
  - apply reverse_involutive.
  - intros c. rewrite head_reverse. apply Hlast.
Qed.

Lemma strip_idemp (s : str) : Py.strip (Py.strip s) = Py.strip s.
Proof. apply strip_fixed; [apply strip_head | apply strip_last]. Qed.

Lemma sub_spaces_from_spaces (in_run : bool) (s : str) :
  Forall (fun c => Py.isspace c = true) s ->
  Forall (fun c => Py.isspace c = true) (Py.sub_spaces_from in_run s).
Proof.
  intros H. revert in_run.
  induction H as [|c s Hc _ IH]; intros in_run; [constructor|].
  simpl. rewrite Hc. destruct in_run; [apply IH|].
  constructor; [done | apply IH].
Qed.

Lemma sub_tags_no_tag (s : str) :
  "<"%char ∉ s -> Py.sub_tags s = s.
Proof.
  unfold Py.sub_tags. induction s as [|c s IH]; intros Hno; [done|].
  simpl. apply not_elem_of_cons in Hno as [Hc Hs].
  rewrite decide_False by done. f_equal. by apply IH.
Qed.

Lemma spaces_no_tag (s : str) :
  Forall (fun c => Py.isspace c = true) s -> "<"%char ∉ s.
Proof.
  intros H Hin. rewrite Forall_forall in H. by specialize (H _ Hin).
Qed.

Lemma fallback_blank (raw : str) :
  Forall (fun c => Py.isspace c = true) raw ->
  Py.strip (Py.sub_spaces (Py.sub_tags raw)) = [].
Proof.
  intros H. rewrite sub_tags_no_tag by (by apply spaces_no_tag).
  by apply strip_spaces, sub_spaces_from_spaces.
Qed.

(** ** Extraction, beyond the stated properties *)

Section ExtractionFurther.

Variable trafilatura_extract : str -> option str.

Lemma extract_content_is_strip (raw : str) :
  exists t : str, extract_content trafilatura_extract raw = Py.strip t.
Proof.
  unfold extract_content.
  destruct (decide (raw = [] \/ Py.strip raw = [])); [by exists []|].
  destruct (trafilatura_extract raw) as [extracted|]; simpl; [|by eexists].
  destruct (decide (extracted <> [] /\ Py.strip extracted <> []));
    by eexists.
Qed.

(** X10: the text returned by [extract_content] is trimmed: it neither starts
    nor ends with white space, on every path. *)
Theorem extract_content_stripped (raw : str) :
  Py.strip (extract_content trafilatura_extract raw)
  = extract_content trafilatura_extract raw
  /\ (forall c : ascii,
        head (extract_content trafilatura_extract raw) = Some c ->
        Py.isspace c = false)
  /\ (forall c : ascii,
        last (extract_content trafilatura_extract raw) = Some c ->
        Py.isspace c = false).
Proof.
  destruct (extract_content_is_strip raw) as (t & ->).
  split; [apply strip_idemp|]. split; [apply strip_head | apply strip_last].
Qed.

Lemma extract_content_empty_inv (raw : str) :
  extract_content trafilatura_extract raw = [] ->
  Forall (fun c => Py.isspace c = true) raw
  \/ (primary_empty trafilatura_extract raw
      /\ Py.strip (Py.sub_spaces (Py.sub_tags raw)) = []).
Proof.
  unfold extract_content, primary_empty.
  destruct (decide (raw = [] \/ Py.strip raw = [])) as [Hblank|Hblank].
  { intros _. left.
    destruct Hblank as [->|Hs]; [constructor | by apply strip_nil_spaces]. }
  destruct (trafilatura_extract raw) as [extracted|]; simpl; [|by right].
  destruct (decide (extracted <> [] /\ Py.strip extracted <> []))
    as [[Hne Hs]|Hno]; [done|].
  intros Hnil. right. split; [|done].
  destruct (decide (extracted = [])); [by left|]. right.
  apply dec_stable. intros Hs. by apply Hno.
Qed.

Lemma extract_content_empty_fallback (raw : str) :
  extract_content trafilatura_extract raw = [] ->
  Py.strip (Py.sub_spaces (Py.sub_tags raw)) = [].
Proof.
  intros [Hblank|[_ Hfb]]%extract_content_empty_inv;
    [by apply fallback_blank | done].
Qed.

(** X11: [extract_content] returns [""] in two cases only: the input is empty
    or white space only, or the library yields nothing usable and the
    tag-stripping fallback yields nothing.  In both the fallback of the
    input is empty: text the fallback would keep is never lost. *)
Theorem extract_content_empty_iff (raw : str) :
  (extract_content trafilatura_extract raw = []
   <-> Forall (fun c => Py.isspace c = true) raw
       \/ (primary_empty trafilatura_extract raw
           /\ Py.strip (Py.sub_spaces (Py.sub_tags raw)) = []))
  /\ (extract_content trafilatura_extract raw = [] ->
      Py.strip (Py.sub_spaces (Py.sub_tags raw)) = []).
Proof.
  split; [|apply extract_content_empty_fallback].
  split; [apply extract_content_empty_inv|].
  unfold extract_content, primary_empty.
  intros [Hblank|[Hprim Hfb]].
  - rewrite decide_True; [done|]. right. by apply strip_spaces.
  - destruct (decide (raw = [] \/ Py.strip raw = [])); [done|].
    destruct (trafilatura_extract raw) as [extracted|]; simpl; [|done].
    rewrite decide_False; [done|]. intros [Hne Hs]. by destruct Hprim.
Qed.

(** X12: on an input without the character [<], when the library yields
    nothing usable, the result is the input with its runs of white space
    collapsed and its ends trimmed: the tag pattern removes nothing. *)
Theorem extract_content_plain_text (raw : str) :
  primary_empty trafilatura_extract raw ->
  "<"%char ∉ raw ->
  extract_content trafilatura_extract raw = Py.strip (Py.sub_spaces raw).
Proof.
  intros Hprim Hno.
  rewrite <- (sub_tags_no_tag raw Hno) at 2.
  unfold extract_content, primary_empty in *.
  destruct (decide (raw = [] \/ Py.strip raw = [])) as [Hblank|Hblank].
  { symmetry. apply fallback_blank.
    destruct Hblank as [->|Hs]; [constructor | by apply strip_nil_spaces]. }
  destruct (trafilatura_extract raw) as [extracted|]; simpl; [|done].
  rewrite decide_False; [done|]. intros [Hne Hs]. by destruct Hprim.
Qed.

End ExtractionFurther.

Lemma extract_content_stripped_witness :
  head (extract_content no_article (lit "  The Tower ")) = Some "T"%char
  /\ Py.isspace "T"%char = false.
Proof.
  split; [reflexivity|].
  destruct (extract_content_stripped no_article (lit "  The Tower "))
    as (_ & Hhead & _).
  apply Hhead. reflexivity.
Defined.

Lemma extract_content_empty_iff_witness :
  extract_content no_article (lit "<p> </p>") = []
  /\ Py.strip (Py.sub_spaces (Py.sub_tags (lit "<p> </p>"))) = [].
Proof.
  split; [reflexivity|].
  destruct (extract_content_empty_iff no_article (lit "<p> </p>")) as (_ & H).
  apply H. reflexivity.
Defined.

Lemma extract_content_plain_text_witness :
  primary_empty no_article (lit " The  Tower ")
  /\ ("<"%char ∉ lit " The  Tower ")
  /\ extract_content no_article (lit " The  Tower ") = lit "The Tower".
Proof.
  assert (Hno : "<"%char ∉ lit " The  Tower ").
  { intros Hin. repeat (apply elem_of_cons in Hin as [Hin|Hin];
      [discriminate Hin|]). by apply elem_of_nil in Hin. }
  split; [exact I|]. split; [exact Hno|].
  rewrite (extract_content_plain_text no_article (lit " The  Tower ") I Hno).
  reflexivity.
Defined.

(** ** The pipeline and the tool wrapper *)

Lemma truncate_result_bounds (fuel : nat) (text query : str) (max_chars : Z) :
  0 < max_chars -> (length text < fuel)%nat ->
  exists r : str,
    truncate_with_relevance fuel text query max_chars = Some r
    /\ Py.len r <= max_chars.
Proof.
  intros Hmax Hfuel.
  destruct (Z.le_gt_cases (Py.len text) max_chars) as [Hshort|Hlong].
  - exists text. split; [|done]. unfold truncate_with_relevance.
    destruct (Z.leb_spec (Py.len text) max_chars); [done | lia].
  - destruct (truncate_long fuel text query max_chars)
      as (n & best & _ & _ & _ & _ & _ & _ & Hres); [lia..|].
    eexists. split; [exact Hres|]. apply slice_to_length. lia.
Qed.

Lemma format_research_result_attribution (title source content : str) :
  format_research_result title source content
  = attribution title source ++ content.
Proof.
  unfold format_research_result, attribution. by rewrite <- !app_assoc.
Qed.

Lemma attribution_length (title source : str) :
  Py.len (attribution title source) = Py.len source + Py.len title + 13.
Proof.
  unfold attribution, Py.len. rewrite !length_app. simpl. lia.
Qed.

Section PipelineFurther.

Variable trafilatura_extract : str -> option str.

Lemma process_search_results_shape (fuel : nat)
    (raw_results query source_name : str) :
  (length (extract_content trafilatura_extract raw_results) < fuel)%nat ->
  exists r : str,
    process_search_results trafilatura_extract fuel raw_results query
      source_name = Some r
    /\ (r = [] <-> extract_content trafilatura_extract raw_results = [])
    /\ (r = [] \/ attribution query source_name `prefix_of` r)
    /\ Py.len r <= Py.len source_name + Py.len query + 1013.
Proof.
  intros Hfuel. unfold process_search_results.
  destruct (decide (extract_content trafilatura_extract raw_results = []))
    as [Hnil|Hne].
  - exists []. split; [done|]. split; [done|]. split; [by left|].
    unfold Py.len. simpl. lia.
  - destruct (truncate_result_bounds fuel
                (extract_content trafilatura_extract raw_results) query 1000)
      as (truncated & -> & Hlen); [lia | done |].
    eexists. split; [done|].
    rewrite format_research_result_attribution.
    split; [split; [intros Hnil; discriminate Hnil | done]|].
    split; [right; by apply prefix_app_r|].
    pose proof (attribution_length query source_name).
    unfold Py.len in *. rewrite length_app. lia.
Qed.

(** X13: the string handed to the model for one raw result is either empty or
    begins with ["[Source: {source}] {query}: "], and it has at most
    [len(source) + len(query) + 1013] characters: the 1000 of the content
    and the 13 of the template. *)
Theorem process_search_results_bounded (fuel : nat)
    (raw_results query source_name : str) :
  (length (extract_content trafilatura_extract raw_results) < fuel)%nat ->
  exists r : str,
    process_search_results trafilatura_extract fuel raw_results query
      source_name = Some r
    /\ (r = [] \/ attribution query source_name `prefix_of` r)
    /\ Py.len r <= Py.len source_name + Py.len query + 1013.
Proof.
  intros Hfuel.
  destruct (process_search_results_shape fuel raw_results query source_name
              Hfuel) as (r & Hr & _ & Hpre & Hlen).
  by exists r.
Qed.


(** X15: a tool that answers [None] does not give an empty observation:
    [str(None)] is the text ["None"], which is processed as content. *)
Theorem wrapped_tool_none (tool_fn : base_tool) (source_name : str)
    (fuel : nat) (query : str) :
  base_run tool_fn query = Py.VNone ->
  (length (extract_content trafilatura_extract (lit "None")) < fuel)%nat ->
  exists r : str,
    func (_wrap_with_research_processing trafilatura_extract tool_fn
            source_name) fuel query = Some r
    /\ r <> []
    /\ attribution query source_name `prefix_of` r.
Proof.
  intros Hnone Hfuel. simpl. unfold processed_run. rewrite Hnone.
  change (Py.to_str Py.VNone) with (lit "None").
  destruct (process_search_results_shape fuel (lit "None") query source_name
              Hfuel) as (r & Hr & Hiff & Hpre & _).
  assert (Hne : r <> []).
  { intros Hnil. apply Hiff in Hnil.
    apply extract_content_empty_fallback in Hnil. discriminate Hnil. }
  exists r. split; [done|]. split; [done|]. by destruct Hpre.
Qed.

End PipelineFurther.

Lemma process_search_results_bounded_witness :
  (length (extract_content no_article (lit "The Tower.")) < 11)%nat
  /\ exists r : str,
       process_search_results no_article 11 (lit "The Tower.")
         (lit "Tower tarot") (lit "duckduckgo") = Some r
       /\ Py.len r <= Py.len (lit "duckduckgo") + Py.len (lit "Tower tarot") + 1013.
Proof.
  assert (Hfuel : (length (extract_content no_article (lit "The Tower.")) < 11)%nat)
    by (vm_compute; lia).
  split; [exact Hfuel|].
  destruct (process_search_results_bounded no_article 11 (lit "The Tower.")
              (lit "Tower tarot") (lit "duckduckgo") Hfuel)
    as (r & Hr & _ & Hlen).
  exists r. split; [exact Hr | exact Hlen].
Defined.


Lemma wrapped_tool_none_witness :
  base_run silent_tool (lit "Tower") = Py.VNone
  /\ (length (extract_content no_article (lit "None")) < 5)%nat
  /\ exists r : str,
       func (_wrap_with_research_processing no_article silent_tool
               (lit "wikipedia")) 5 (lit "Tower") = Some r
       /\ r <> [].
Proof.
  assert (Hfuel : (length (extract_content no_article (lit "None")) < 5)%nat)
    by (vm_compute; lia).
  split; [reflexivity|]. split; [exact Hfuel|].
  destruct (wrapped_tool_none no_article silent_tool (lit "wikipedia") 5
              (lit "Tower") eq_refl Hfuel) as (r & Hr & Hne & _).
  exists r. split; [exact Hr | exact Hne].
Defined.

Example wrapped_tool_none_ex :
  func (_wrap_with_research_processing no_article silent_tool (lit "wikipedia"))
    5 (lit "Tower")
  = Some (lit "[Source: wikipedia] Tower: None").
Proof. vm_compute. reflexivity. Qed.

(** ** Context budget, beyond the stated properties *)

Lemma slice_to_prefix (r : str) (stop : Z) : Py.slice_to r stop `prefix_of` r.
Proof.
  unfold Py.slice_to, Py.slice.
  replace (Py.clamp (Py.len r) 0) with 0
    by (unfold Py.clamp, Py.len; simpl; lia).
  simpl. apply prefix_take.
Qed.

Lemma sum_len_prefixes (pieces results : list str) :
  Forall2 prefix pieces results -> Py.sum_len pieces <= Py.sum_len results.
Proof.
  induction 1 as [|p r pieces results Hp _ IH]; [done|].
  simpl. apply prefix_length in Hp. unfold Py.len. lia.
Qed.

Lemma slice_to_prefixes (results : list str) (stop : Z) :
  Forall2 prefix (map (fun r => Py.slice_to r stop) results) results.
Proof.
  induction results as [|r results IH]; [constructor|].
  constructor; [apply slice_to_prefix | apply IH].
Qed.

(** X16: budgeting only removes characters from the end of pieces: whatever
    the budget, the result joins one prefix of each input string, in the
    order of the input, and is never longer than the unbudgeted join. *)
Theorem budget_context_prefixes (results : list str) (max_total_chars : Z) :
  exists pieces : list str,
    budget_context results max_total_chars = Py.join sep pieces
    /\ Forall2 prefix pieces results
    /\ Py.len (budget_context results max_total_chars)
       <= Py.len (Py.join sep results).
Proof.
  assert (Hpieces : exists pieces : list str,
    budget_context results max_total_chars = Py.join sep pieces
    /\ Forall2 prefix pieces results).
  { destruct (Z.le_gt_cases (Py.sum_len results) max_total_chars)
      as [Hin|Hover].
    - exists results. split; [by apply budget_context_within|].
      by apply Forall_Forall2_diag, Forall_true.
    - eexists. split; [apply budget_context_over; lia|].
      apply slice_to_prefixes. }
  destruct Hpieces as (pieces & Heq & Hpre).
  exists pieces. split; [done|]. split; [done|].
  rewrite Heq.
  destruct results as [|r results].
  - apply Forall2_nil_inv_r in Hpre as ->. done.
  - assert (pieces <> []) by (intros ->; by apply Forall2_nil_inv_l in Hpre).
    rewrite !join_length by done.
    pose proof (sum_len_prefixes _ _ Hpre).
    apply Forall2_length in Hpre. unfold Py.len. rewrite Hpre. lia.
Qed.



Lemma deduplicate_results_fixed_point_witness :
  NoDup (fingerprint <$>
           [ ({[lit "content" := Py.VStr (lit "abc")]} : record);
             {[lit "content" := Py.VStr (lit "xyz")]} ])
  /\ deduplicate_results
       [ {[lit "content" := Py.VStr (lit "abc")]};
         {[lit "content" := Py.VStr (lit "xyz")]} ]
     = [ {[lit "content" := Py.VStr (lit "abc")]};
         {[lit "content" := Py.VStr (lit "xyz")]} ].
Proof.
  assert (Hnd : NoDup (fingerprint <$>
           [ ({[lit "content" := Py.VStr (lit "abc")]} : record);
             {[lit "content" := Py.VStr (lit "xyz")]} ])).
  { apply (bool_decide_unpack _). vm_compute. exact I. }
  split; [exact Hnd|].
  apply (proj2 (deduplicate_results_fixed_point _) Hnd).
Defined.

(** * The model against the notions of the specification *)

(** ** Characters *)

Lemma isspace_table (c : ascii) :
  Py.isspace c = true <-> c ∈ whitespace_table.
Proof.
  destruct (Py.isspace c) eqn:Hc.
  - split; [intros _ | done].
    apply (bool_decide_unpack _).
    by destruct c as [[] [] [] [] [] [] [] []].
  - split; [done|]. intros Hin.
    apply (bool_decide_pack (c ∈ whitespace_table)) in Hin.
    by destruct c as [[] [] [] [] [] [] [] []].
Qed.

Lemma lower_char_table (c : ascii) : Py.lower_char c = to_lower c.
Proof. by destruct c as [[] [] [] [] [] [] [] []]. Qed.

Lemma lower_table_spec (s : str) : Py.lower s = map to_lower s.
Proof. unfold Py.lower. apply map_ext, lower_char_table. Qed.

(** ** Words *)

Lemma nonspace_not_space (l : str) (c : ascii) :
  Forall (fun c => Py.isspace c = false) l -> c ∈ l ->
  Py.isspace c = true -> False.
Proof.
  intros Hl Hin Hc. rewrite Forall_forall in Hl.
  specialize (Hl c Hin). congruence.
Qed.

Lemma last_space_nil (pre u : str) :
  Forall (fun c => Py.isspace c = false) u ->
  (forall c, c ∈ pre -> c ∈ u) ->
  (forall c, last pre = Some c -> Py.isspace c = true) ->
  pre = [].
Proof.
  intros Hu Hsub Hlast. destruct (decide (pre = [])) as [|Hne]; [done|].
  apply last_is_Some in Hne as [c Hc]. exfalso.
  apply (nonspace_not_space u c Hu); [|by apply Hlast].
  by apply Hsub, last_Some_elem_of.
Qed.

Lemma head_space_nil (post u : str) :
  Forall (fun c => Py.isspace c = false) u ->
  (forall c, c ∈ post -> c ∈ u) ->
  (forall c, head post = Some c -> Py.isspace c = true) ->
  post = [].
Proof.
  intros Hu Hsub Hhead. destruct post as [|c post]; [done|]. exfalso.
  apply (nonspace_not_space u c Hu); [|by apply Hhead].
  apply Hsub. by left.
Qed.

Lemma is_word_self (u : str) :
  u <> [] -> Forall (fun c => Py.isspace c = false) u -> is_word u u.
Proof.
  intros Hne Hu. split; [done|]. split; [done|].
  exists [], []. by rewrite app_nil_r.
Qed.

Lemma is_word_nonspace (w u : str) :
  Forall (fun c => Py.isspace c = false) u -> is_word w u -> w = u.
Proof.
  intros Hu (Hne & Hw & pre & post & Heq & Hpre & Hpost).
  assert (pre = []) as ->.
  { apply (last_space_nil pre u Hu); [|done].
    intros c Hc. rewrite Heq. apply elem_of_app. by left. }
  assert (post = []) as ->.
  { apply (head_space_nil post u Hu); [|done].
    intros c Hc. rewrite Heq, !elem_of_app. right. by right. }
  by rewrite Heq, app_nil_r.
Qed.

Lemma last_after_space (c : ascii) (l pre : str) :
  Py.isspace c = true ->
  (forall d, last pre = Some d -> Py.isspace d = true) ->
  forall d, last (l ++ c :: pre) = Some d -> Py.isspace d = true.
Proof.
  intros Hc Hpre d. rewrite last_app, last_cons.
  destruct (last pre) as [e|] eqn:He.
  - intros [= <-]. by apply Hpre.
  - by intros [= <-].
Qed.

Lemma is_word_cons_space (w s : str) (c : ascii) :
  Py.isspace c = true -> is_word w (c :: s) <-> is_word w s.
Proof.
  intros Hc. split.
  - intros (Hne & Hw & pre & post & Heq & Hpre & Hpost).
    split; [done|]. split; [done|].
    destruct pre as [|d pre].
    + exfalso. destruct w as [|d w]; [done|]. simpl in Heq.
      injection Heq as <- _.
      apply (nonspace_not_space (c :: w) c Hw); [by left | done].
    + simpl in Heq. injection Heq as <- Heq.
      exists pre, post. split; [done|]. split; [|done].
      intros d Hd. apply Hpre. rewrite last_cons. by rewrite Hd.
  - intros (Hne & Hw & pre & post & Heq & Hpre & Hpost).
    split; [done|]. split; [done|].
    exists (c :: pre), post. split; [by rewrite Heq|]. split; [|done].
    apply (last_after_space c [] pre Hc Hpre).
Qed.

Lemma is_word_after_run (w cur s : str) (c : ascii) :
  Forall (fun c => Py.isspace c = false) cur -> cur <> [] ->
  Py.isspace c = true ->
  is_word w (cur ++ c :: s) <-> w = cur \/ is_word w s.
Proof.
  intros Hcur Hne Hc. split.
  - intros (Hwne & Hw & pre & post & Heq & Hpre & Hpost).
    destruct (decide (pre = [])) as [->|Hprene].
    + left. simpl in Heq.
      apply app_eq_app in Heq as [l [[-> Hl]|[-> Hl]]].
      * destruct l as [|d l]; [by rewrite app_nil_r|]. exfalso.
        apply (nonspace_not_space (w ++ d :: l) d Hcur).
        -- apply elem_of_app. right. by left.
        -- apply Hpost. by rewrite Hl.
      * destruct l as [|d l]; [by rewrite app_nil_r|]. exfalso.
        simpl in Hl. injection Hl as <- _.
        apply (nonspace_not_space (cur ++ c :: l) c Hw); [|done].
        apply elem_of_app. right. by left.
    + right. apply app_eq_app in Heq as [l [[-> Hl]|[-> Hl]]].
      * exfalso. apply last_is_Some in Hprene as [d Hd].
        apply (nonspace_not_space (pre ++ l) d Hcur); [|by apply Hpre].
        apply elem_of_app. left. by apply last_Some_elem_of.
      * destruct l as [|d l].
        -- exfalso. destruct w as [|d w]; [done|].
           simpl in Hl. injection Hl as <- _.
           apply (nonspace_not_space (c :: w) c Hw); [by left | done].
        -- simpl in Hl. injection Hl as <- Hl.
           split; [done|]. split; [done|].
           exists l, post. split; [done|]. split; [|done].
           intros d Hd. apply Hpre.
           rewrite last_app, last_cons. by rewrite Hd.
  - intros [->|(Hwne & Hw & pre & post & Heq & Hpre & Hpost)].
    + split; [done|]. split; [done|].
      exists [], (c :: s). split; [done|]. split; [done|].
      by intros d [= <-].
    + split; [done|]. split; [done|].
      exists (cur ++ c :: pre), post.
      split; [by rewrite Heq, <- app_assoc|]. split; [|done].
      by apply last_after_space.
Qed.

(** The words [split_from] returns are the words of the text read so
    far and still to read. *)
Lemma split_from_words (s cur w : str) :
  Forall (fun c => Py.isspace c = false) cur ->
  w ∈ Py.split_from cur s <-> is_word w (cur ++ s).
Proof.
  revert cur. induction s as [|c s IH]; intros cur Hcur; simpl.
  - rewrite app_nil_r. destruct (decide (cur = [])) as [->|Hne].
    + split; [by intros ?%elem_of_nil|].
      intros Hw. pose proof (is_word_nonspace w [] Hcur Hw) as ->.
      by destruct Hw as [Hne _].
    + rewrite list_elem_of_singleton. split.
      * intros ->. by apply is_word_self.
      * by apply is_word_nonspace.
  - destruct (Py.isspace c) eqn:Hc.
    + destruct (decide (cur = [])) as [->|Hne].
      * rewrite (IH [] Hcur). simpl.
        by rewrite is_word_cons_space.
      * rewrite elem_of_cons, (IH [] (Forall_nil_2 _)). simpl.
        by rewrite is_word_after_run.
    + rewrite IH by (apply Forall_app; split; [done | by constructor]).
      by rewrite <- app_assoc.
Qed.

Lemma split_words (s w : str) : w ∈ Py.split s <-> is_word w s.
Proof. apply (split_from_words s [] w). constructor. Qed.

Lemma word_set_words (s w : str) :
  w ∈ word_set s <-> is_word w (map to_lower s).
Proof.
  unfold word_set. rewrite elem_of_list_to_set, split_words.
  by rewrite lower_table_spec.
Qed.

(** ** Trimming and collapsing as splitting and joining *)

Lemma split_from_nonempty (s cur : str) :
  cur <> [] -> Py.split_from cur s <> [].
Proof.
  revert cur. induction s as [|c s IH]; intros cur Hne; simpl.
  - by rewrite decide_False.
  - destruct (Py.isspace c); [by rewrite decide_False|].
    apply IH. by destruct cur.
Qed.

Lemma split_nonempty (s : str) (c : ascii) :
  last s = Some c -> Py.isspace c = false -> Py.split_from [] s <> [].
Proof.
  induction s as [|d s IH]; [done|]. intros Hlast Hc. simpl.
  destruct (Py.isspace d) eqn:Hd.
  - apply IH; [|done]. rewrite last_cons in Hlast.
    destruct (last s); [done|]. congruence.
  - by apply split_from_nonempty.
Qed.

Lemma join_cons (sp x : str) (l : list str) :
  l <> [] -> Py.join sp (x :: l) = x ++ sp ++ Py.join sp l.
Proof. by destruct l. Qed.

Lemma split_from_spaces (sp cur : str) :
  Forall (fun c => Py.isspace c = true) sp ->
  Py.split_from cur sp = if decide (cur = []) then [] else [cur].
Proof.
  intros Hsp. revert cur.
  induction Hsp as [|c sp Hc _ IH]; intros cur; [done|]. simpl. rewrite Hc.
  destruct (decide (cur = [])); by rewrite IH.
Qed.

Lemma split_from_trailing (s sp cur : str) :
  Forall (fun c => Py.isspace c = true) sp ->
  Py.split_from cur (s ++ sp) = Py.split_from cur s.
Proof.
  intros Hsp. revert cur. induction s as [|c s IH]; intros cur; simpl.
  - by apply split_from_spaces.
  - destruct (Py.isspace c); [destruct (decide (cur = []))|];
      by rewrite IH.
Qed.

Lemma split_lstrip (s : str) : Py.split (Py.lstrip s) = Py.split s.
Proof.
  unfold Py.split. induction s as [|c s IH]; [done|]. simpl.
  destruct (Py.isspace c) eqn:Hc; [done|]. simpl. by rewrite Hc.
Qed.

Lemma split_strip (s : str) : Py.split (Py.strip s) = Py.split s.
Proof.
  unfold Py.strip.
  destruct (rstrip_decomp (Py.lstrip s)) as (sp & Heq & Hsp).
  rewrite <- (split_lstrip s). rewrite Heq at 2.
  unfold Py.split. by rewrite split_from_trailing.
Qed.

(** On a text that does not end with white space, what [re.sub] writes
    from a state of the scan is the words still to come, joined by
    single spaces. *)
Lemma sub_spaces_from_join (s : str) :
  (forall c, last s = Some c -> Py.isspace c = false) ->
  (forall cur : str,
     Forall (fun c => Py.isspace c = false) cur ->
     cur <> [] \/ (forall c, head s = Some c -> Py.isspace c = false) ->
     cur ++ Py.sub_spaces_from false s
     = Py.join [" "%char] (Py.split_from cur s))
  /\ Py.sub_spaces_from true s = Py.join [" "%char] (Py.split_from [] s).
Proof.
  induction s as [|c s IH]; intros Hlast.
  - split; [|done]. intros cur _ _. simpl. rewrite app_nil_r.
    by destruct (decide (cur = [])) as [->|].
  - assert (Htail : forall d, last s = Some d -> Py.isspace d = false).
    { intros d Hd. apply Hlast. rewrite last_cons. by rewrite Hd. }
    destruct (IH Htail) as [IHA IHB]. simpl.
    destruct (Py.isspace c) eqn:Hc.
    + assert (Hrest : Py.split_from [] s <> []).
      { destruct (last s) as [d|] eqn:Hd.
        - apply (split_nonempty s d Hd). by apply Htail.
        - specialize (Hlast c). rewrite last_cons, Hd in Hlast.
          specialize (Hlast eq_refl). congruence. }
      split; [|done].
      intros cur Hcur [Hne|Hhead].
      * rewrite decide_False by done.
        rewrite join_cons by done. by rewrite IHB.
      * specialize (Hhead c eq_refl). congruence.
    + split.
      * intros cur Hcur _.
        rewrite <- (IHA (cur ++ [c])).
        -- by rewrite <- app_assoc.
        -- apply Forall_app. split; [done | by constructor].
        -- left. by destruct cur.
      * rewrite <- (IHA [c]); [done | by constructor | by left].
Qed.

(** Trimming a text and collapsing its runs of white space gives its
    words joined by single spaces: [" ".join(s.split())]. *)
Lemma sub_spaces_strip (s : str) :
  Py.sub_spaces (Py.strip s) = Py.join [" "%char] (Py.split s).
Proof.
  rewrite <- split_strip. unfold Py.sub_spaces, Py.split.
  destruct (sub_spaces_from_join (Py.strip s)) as [HA _];
    [apply strip_last|].
  apply (HA []); [constructor|]. right. apply strip_head.
Qed.

(** * The stated properties that rest on the notions above *)

(** C3: on a text longer than a positive [max_chars] the chunks are the
    windows [text[start : start + max_chars]] for [start] = 0, stride,
    2*stride, ... with stride = [max_chars - max_chars // 4], as many as
    start inside the text and no more; every position of the text lies
    in one of them.  A window is scored by the number of words that the
    query and the window have in common, a word being a maximal run
    without white space of the lower-cased text.  The result is the
    window of the greatest score, the earliest one among equals, cut to
    [max_chars]. *)
Theorem truncate_with_relevance_windows (fuel : nat) (text query : str)
    (max_chars : Z) :
  0 < max_chars -> max_chars < Py.len text -> (length text < fuel)%nat ->
  let stride := max_chars - max_chars / 4 in
  let score := score_chunk (word_set query) in
  exists n best : nat,
    chunk_loop fuel text max_chars (max_chars / 4) 0 []
      = Some (map (window text max_chars) (seq 0 n))
    /\ (forall k : nat,
          window text max_chars k
          = Py.slice text (Z.of_nat k * stride) (Z.of_nat k * stride + max_chars)
          /\ window text max_chars k
             = take (Z.to_nat max_chars)
                 (drop (Z.to_nat (Z.of_nat k * stride)) text))
    /\ (forall k : nat, (k < n)%nat -> Z.of_nat k * stride < Py.len text)
    /\ Py.len text <= Z.of_nat n * stride
    /\ (forall p : Z, 0 <= p < Py.len text ->
          exists k : nat, (k < n)%nat
            /\ Z.of_nat k * stride <= p < Z.of_nat k * stride + max_chars)
    /\ (forall chunk : str,
          score chunk
          = size ((list_to_set (Py.split (Py.lower query)) : gset str)
                  ∩ list_to_set (Py.split (Py.lower chunk))))
    /\ (forall chunk : str,
          score chunk = size (word_set query ∩ word_set chunk)
          /\ forall w : str,
               w ∈ word_set query ∩ word_set chunk
               <-> is_word w (map to_lower query)
                   /\ is_word w (map to_lower chunk))
    /\ (forall c : ascii, Py.isspace c = true <-> c ∈ whitespace_table)
    /\ (best < n)%nat
    /\ (forall k : nat, (k < n)%nat ->
          (score (window text max_chars k)
           <= score (window text max_chars best))%nat)
    /\ (forall k : nat, (k < best)%nat ->
          (score (window text max_chars k)
           < score (window text max_chars best))%nat)
    /\ truncate_with_relevance fuel text query max_chars
       = Some (Py.slice_to (window text max_chars best) max_chars)
    /\ Py.slice_to (window text max_chars best) max_chars
       = window text max_chars best.
Proof.
  intros Hmax Hlong Hfuel stride score.
  pose proof (stride_bounds max_chars Hmax) as Hstride.
  destruct (truncate_long fuel text query max_chars Hmax Hlong Hfuel)
    as (n & best & Hchunks & Hbest & Hin & Hout & Hall & Hbefore & Hres).
  exists n, best.
  split; [done|].
  split; [intros k; split; [done | by apply window_take_drop]|].
  split; [done|].
  split; [done|].
  split.
  { intros p Hp. exists (Z.to_nat (p / stride)).
    assert (0 <= p / stride) by (apply Z.div_pos; lia).
    rewrite Z2Nat.id by done.
    pose proof (Z.mul_div_le p stride ltac:(lia)).
    pose proof (Z.mul_succ_div_gt p stride ltac:(lia)).
    split; [|unfold stride in *; lia].
    apply Nat2Z.inj_lt. rewrite Z2Nat.id by done.
    apply (Z.mul_lt_mono_pos_r stride); [lia|].
    unfold stride in *. lia. }
  split; [done|].
  split.
  { intros chunk. split; [done|]. intros w.
    by rewrite elem_of_intersection, !word_set_words. }
  split; [apply isspace_table|].
  split; [done|].
  split; [done|].
  split; [done|].
  split; [done|].
  apply slice_to_short, window_length. done.
Qed.

Lemma truncate_with_relevance_windows_witness :
  0 < 4 /\ 4 < Py.len (lit "aa bb cc dd")
  /\ (length (lit "aa bb cc dd") < 12)%nat
  /\ chunk_loop 12 (lit "aa bb cc dd") 4 (4 / 4) 0 []
     = Some [lit "aa b"; lit "bb c"; lit "cc d"; lit "dd"]
  /\ score_chunk (word_set (lit "CC")) (lit "cc d") = 1%nat
  /\ is_word (lit "cc") (map to_lower (lit "CC"))
  /\ truncate_with_relevance 12 (lit "aa bb cc dd") (lit "CC") 4
     = Some (lit "cc d")
  /\ truncate_with_relevance 12 (lit "aa bb cc dd") (lit "aa dd") 4
     = Some (lit "aa b").
Proof.
  split; [lia|]. split; [vm_compute; reflexivity|]. split; [vm_compute; lia|].
  assert (Htie : truncate_with_relevance 12 (lit "aa bb cc dd") (lit "aa dd") 4
                 = Some (lit "aa b")).
  { destruct (truncate_with_relevance_windows 12 (lit "aa bb cc dd")
                (lit "aa dd") 4)
      as (n & best & _ & _ & Hin & Hout & _ & _ & _ & _
          & Hbest & Hall & Hbefore & Hres & _);
      [lia | vm_compute; reflexivity | vm_compute; lia |].
    change (4 - 4 / 4) with 3 in *.
    change (Py.len (lit "aa bb cc dd")) with 11 in *.
    assert (n = 4%nat) as ->.
    { destruct n as [|n]; [lia|]. specialize (Hin n ltac:(lia)). lia. }
    rewrite Hres.
    destruct best as [|[|[|[|best]]]]; [| | | |lia].
    - vm_compute. reflexivity.
    - specialize (Hall 0%nat ltac:(lia)). vm_compute in Hall. lia.
    - specialize (Hall 0%nat ltac:(lia)). vm_compute in Hall. lia.
    - specialize (Hbefore 0%nat ltac:(lia)). vm_compute in Hbefore. lia. }
  destruct (truncate_with_relevance_windows 12 (lit "aa bb cc dd") (lit "CC") 4)
    as (n & best & Hchunks & _ & Hin & Hout & _ & _ & Hscore & _
        & Hbest & Hall & Hbefore & Hres & _);
    [lia | vm_compute; reflexivity | vm_compute; lia |].
  change (4 - 4 / 4) with 3 in *.
  change (Py.len (lit "aa bb cc dd")) with 11 in *.
  assert (n = 4%nat) as ->.
  { destruct n as [|n]; [lia|]. specialize (Hin n ltac:(lia)). lia. }
  split; [exact Hchunks|].
  split; [vm_compute; reflexivity|].
  split.
  { destruct (Hscore (lit "cc d")) as [_ Hwords].
    apply (Hwords (lit "cc")). vm_compute. reflexivity. }
  split; [|exact Htie].
  rewrite Hres.
  destruct best as [|[|[|[|best]]]]; [| | | |lia].
  - specialize (Hall 2%nat ltac:(lia)). vm_compute in Hall. lia.
  - specialize (Hall 2%nat ltac:(lia)). vm_compute in Hall. lia.
  - vm_compute. reflexivity.
  - specialize (Hbefore 2%nat ltac:(lia)). vm_compute in Hbefore. lia.
Defined.

Lemma strip_decomp (s : str) :
  exists sp1 sp2 : str,
    s = sp1 ++ Py.strip s ++ sp2
    /\ Forall (fun c => Py.isspace c = true) sp1
    /\ Forall (fun c => Py.isspace c = true) sp2.
Proof.
  destruct (lstrip_decomp s) as (sp1 & Heq1 & Hsp1).
  destruct (rstrip_decomp (Py.lstrip s)) as (sp2 & Heq2 & Hsp2).
  exists sp1, sp2. split; [|done].
  unfold Py.strip. by rewrite <- Heq2.
Qed.

(** C4: [deduplicate_results] returns, in the order of the batch, exactly
    the records whose fingerprint does not occur in an earlier record.
    The fingerprint is computed from the value under the key ["content"]
    (the empty string when the key is absent): its first 200 characters,
    lower-cased, trimmed, with runs of white space collapsed, which is
    the words of the lower-cased prefix joined by single spaces.
    Records whose content is empty or absent have the fingerprint [""],
    so at most one of them is returned. *)
Theorem deduplicate_results_first_occurrences (results : list record) :
  deduplicate_results results = first_occurrences results
  /\ deduplicate_results results `sublist_of` results
  /\ (forall r : record,
        r ∈ deduplicate_results results
        <-> exists i : nat,
              results !! i = Some r
              /\ fingerprint r ∉ fingerprint <$> take i results)
  /\ (forall r : record,
        fingerprint r
        = Py.sub_spaces (Py.strip (Py.lower (take 200 (content_of r)))))
  /\ (forall r : record, r !! lit "content" = None -> content_of r = [])
  /\ (forall (r : record) (v : Py.value),
        r !! lit "content" = Some v -> content_of r = Py.to_str v)
  /\ (forall (r : record) (s : str),
        r !! lit "content" = Some (Py.VStr s) -> content_of r = s)
  /\ (forall r : record,
        fingerprint r
        = Py.join [" "%char]
            (Py.split (map to_lower (take 200 (content_of r)))))
  /\ (forall s w : str, w ∈ Py.split s <-> is_word w s)
  /\ (forall c : ascii, Py.isspace c = true <-> c ∈ whitespace_table)
  /\ (forall s : str,
        (exists sp1 sp2 : str,
           s = sp1 ++ Py.strip s ++ sp2
           /\ Forall (fun c => Py.isspace c = true) sp1
           /\ Forall (fun c => Py.isspace c = true) sp2)
        /\ (forall c, head (Py.strip s) = Some c -> Py.isspace c = false)
        /\ (forall c, last (Py.strip s) = Some c -> Py.isspace c = false))
  /\ (forall r : record, empty_content r -> fingerprint r = [])
  /\ (forall (i j : nat) (r1 r2 : record),
        deduplicate_results results !! i = Some r1 ->
        deduplicate_results results !! j = Some r2 ->
        empty_content r1 -> empty_content r2 -> i = j).
Proof.
  rewrite deduplicate_results_first.
  split; [done|].
  split; [apply first_occurrences_sublist|].
  split.
  { intros r. unfold first_occurrences.
    rewrite list_elem_of_fmap. split.
    - intros ([i x] & -> & [Hnew Hin]%list_elem_of_filter).
      apply elem_of_lookup_imap in Hin as (j & y & [= -> ->] & Hj).
      by exists j.
    - intros (i & Hi & Hnew). exists (i, r). split; [done|].
      apply list_elem_of_filter. split; [done|].
      by apply (elem_of_lookup_imap_2 pair). }
  split.
  { intros r. unfold fingerprint. by rewrite slice_to_nonneg by lia. }
  split.
  { intros r Hr. unfold content_of. by rewrite Hr. }
  split.
  { intros r v Hr. unfold content_of. by rewrite Hr. }
  split.
  { intros r s Hr. unfold content_of. by rewrite Hr. }
  split.
  { intros r. unfold fingerprint.
    rewrite sub_spaces_strip, lower_table_spec.
    by rewrite slice_to_nonneg by lia. }
  split; [apply split_words|].
  split; [apply isspace_table|].
  split.
  { intros s. split; [apply strip_decomp|].
    split; [apply strip_head | apply strip_last]. }
  split; [apply empty_content_fingerprint|].
  intros i j r1 r2 Hi Hj H1 H2.
  apply (NoDup_lookup (fingerprint <$> first_occurrences results) i j []).
  - apply first_occurrences_NoDup.
  - by rewrite list_lookup_fmap, Hi, <- (empty_content_fingerprint r1).
  - by rewrite list_lookup_fmap, Hj, <- (empty_content_fingerprint r2).
Qed.

Lemma deduplicate_results_first_occurrences_witness :
  ({[lit "content" := Py.VStr (lit " The  TOWER ")]} : record) !! lit "content"
  = Some (Py.VStr (lit " The  TOWER "))
  /\ content_of {[lit "content" := Py.VStr (lit " The  TOWER ")]}
     = lit " The  TOWER "
  /\ fingerprint {[lit "content" := Py.VStr (lit " The  TOWER ")]}
     = lit "the tower"
  /\ (∅ : record) !! lit "content" = None
  /\ content_of ∅ = []
  /\ deduplicate_results
       [ {[lit "content" := Py.VStr (lit "abc")]};
         {[lit "content" := Py.VStr (lit "abc")]};
         {[lit "content" := Py.VStr (lit "xyz")]} ]
     = [ {[lit "content" := Py.VStr (lit "abc")]};
         {[lit "content" := Py.VStr (lit "xyz")]} ]
  /\ deduplicate_results
       [ {[lit "content" := Py.VStr (lit "The Tower")]};
         {[lit "content" := Py.VStr (lit " The  TOWER ")]};
         ∅;
         {[lit "content" := Py.VStr []]} ]
     = [ {[lit "content" := Py.VStr (lit "The Tower")]}; ∅ ].
Proof.
  destruct (deduplicate_results_first_occurrences
    [ {[lit "content" := Py.VStr (lit "abc")]};
      {[lit "content" := Py.VStr (lit "abc")]};
      {[lit "content" := Py.VStr (lit "xyz")]} ])
    as (Heq & _ & _ & _ & Habsent & _ & Hstr & Hfp & _).
  destruct (deduplicate_results_first_occurrences
    [ {[lit "content" := Py.VStr (lit "The Tower")]};
      {[lit "content" := Py.VStr (lit " The  TOWER ")]};
      ∅;
      {[lit "content" := Py.VStr []]} ]) as (Heq' & _).
  assert (Hlook :
    ({[lit "content" := Py.VStr (lit " The  TOWER ")]} : record) !! lit "content"
    = Some (Py.VStr (lit " The  TOWER "))) by reflexivity.
  split; [exact Hlook|].
  split; [exact (Hstr _ _ Hlook)|].
  split; [rewrite Hfp, (Hstr _ _ Hlook); vm_compute; reflexivity|].
  split; [reflexivity|].
  split; [apply (Habsent ∅); reflexivity|].
  split; [rewrite Heq | rewrite Heq']; vm_compute; reflexivity.
Defined.

(** C6: the three cases of [budget_context], whose separator is two line
    feeds: the empty list gives the empty string; a non-empty list whose
    lengths sum to at most [max_total_chars] is joined unmodified;
    otherwise every piece is cut to [r[:max_total_chars // len(results)]],
    its first [max_total_chars // len(results)] characters when the
    budget is not negative, and the cut pieces are joined.  Two pieces of
    1000 characters under a budget of 600 give two pieces of 300 with
    two line feeds between them. *)
Theorem budget_context_cases (results : list str) (max_total_chars : Z) :
  budget_context [] max_total_chars = []
  /\ (results <> [] -> Py.sum_len results <= max_total_chars ->
      budget_context results max_total_chars
      = Py.join ["010"%char; "010"%char] results)
  /\ (max_total_chars < Py.sum_len results ->
      budget_context results max_total_chars
      = Py.join ["010"%char; "010"%char]
          (map (fun r => Py.slice_to r (max_total_chars / Py.len results))
             results))
  /\ (0 <= max_total_chars ->
      forall r : str,
        Py.slice_to r (max_total_chars / Py.len results)
        = take (Z.to_nat (max_total_chars / Py.len results)) r)
  /\ (forall (sp x y : str) (l : list str),
        Py.join sp [] = []
        /\ Py.join sp [x] = x
        /\ Py.join sp (x :: y :: l) = x ++ sp ++ Py.join sp (y :: l))
  /\ Py.sum_len results
     = foldr Z.add 0 (map (fun r => Z.of_nat (length r)) results)
  /\ budget_context [replicate 1000 "a"%char; replicate 1000 "b"%char] 600
     = replicate 300 "a"%char ++ ["010"%char; "010"%char]
       ++ replicate 300 "b"%char.
Proof.
  split; [done|].
  split; [intros _; apply budget_context_within|].
  split; [apply budget_context_over|].
  split.
  { intros Hmax r. apply slice_to_nonneg.
    destruct results as [|x l]; [by rewrite Z.div_0_r|].
    apply Z.div_pos; [done|]. unfold Py.len. simpl. lia. }
  split; [done|].
  split; [|vm_compute; reflexivity].
  induction results as [|r results IH]; [done|]. simpl. by rewrite <- IH.
Qed.

Lemma budget_context_cases_witness :
  6 < Py.sum_len [lit "aaaa"; lit "bbbb"]
  /\ budget_context [lit "aaaa"; lit "bbbb"] 6
     = ["a"; "a"; "a"; "010"; "010"; "b"; "b"; "b"]%char
  /\ [lit "abc"; lit "de"] <> []
  /\ Py.sum_len [lit "abc"; lit "de"] <= 5
  /\ budget_context [lit "abc"; lit "de"] 5
     = ["a"; "b"; "c"; "010"; "010"; "d"; "e"]%char.
Proof.
  destruct (budget_context_cases [lit "aaaa"; lit "bbbb"] 6)
    as (_ & _ & Hover & Hcut & _).
  destruct (budget_context_cases [lit "abc"; lit "de"] 5)
    as (_ & Hwithin & _).
  assert (H1 : 6 < Py.sum_len [lit "aaaa"; lit "bbbb"])
    by (vm_compute; reflexivity).
  assert (H2 : [lit "abc"; lit "de"] <> []) by discriminate.
  assert (H3 : Py.sum_len [lit "abc"; lit "de"] <= 5)
    by (vm_compute; discriminate).
  split; [exact H1|].
  split; [rewrite (Hover H1); simpl map; rewrite !Hcut by lia; reflexivity|].
  split; [exact H2|]. split; [exact H3|].
  rewrite (Hwithin H2 H3). reflexivity.
Defined.

(** ** [extract_content] and the exceptions of the library call *)

Lemma blank_spaces (raw : str) :
  raw = [] \/ Py.strip raw = []
  <-> Forall (fun c => Py.isspace c = true) raw.
Proof.
  split.
  - intros [->|Hs]; [constructor | by apply strip_nil_spaces].
  - intros H. right. by apply strip_spaces.
Qed.



